(** * Hospital Management System: the appointment core, embedded and verified

    The development follows the two lineages of [pms_core.py]:
    - [Routing]  is [src/pms_core.py]  (specialty routing, slot grid);
    - [Lineage]  is [src/dsa_pbl/pms_core.py] (allowed times, conflict check);
    - [WebApp]   is the signup route of [src/app.py].

    The JSON document is a record of typed collections.  Python dictionaries
    whose iteration order is observed ([doctors]) are insertion-ordered
    association lists; the others are finite maps.  [uuid], [datetime.now] and
    [datetime.strptime] are outside the repository: generated ids and the
    clock are arguments of the operations, the parser is a section variable. *)

From Stdlib Require Import Ascii String ZArith Lia Bool Sorted Permutation.
From stdpp Require Import gmap strings list.

Local Open Scope Z_scope.
Local Open Scope nat_scope.

(** ** Python string methods used by the core *)
Module Py.

Definition string_eqb (a b : string) : bool := bool_decide (a = b).

(** [str.lower] on the ASCII range; bytes above 127 are left as they are.
    On text of ASCII characters this is Python's [str.lower]; Python also
    lower-cases the letters outside ASCII.  [Uni] below takes the built-in as
    a parameter for the operations that normalise user text. *)
Definition lower_char (c : ascii) : ascii :=
  let n := nat_of_ascii c in
  if (65 <=? n) && (n <=? 90) then ascii_of_nat (n + 32) else c.

Fixpoint lower (s : string) : string :=
  match s with
  | EmptyString => EmptyString
  | String c r => String (lower_char c) (lower r)
  end.

(** [str.isspace] for one character of the ASCII range:
    tab, LF, VT, FF, CR, the separators 28..31 and the space.  Python's
    [str.strip] also trims the white space outside ASCII (U+0085, U+00A0,
    U+2000 and the like), so [strip] below is [str.strip] on text of ASCII
    characters only. *)
Definition is_space (c : ascii) : bool :=
  let n := nat_of_ascii c in
  ((9 <=? n) && (n <=? 13)) || ((28 <=? n) && (n <=? 32)).

Fixpoint lstrip (s : string) : string :=
  match s with
  | EmptyString => EmptyString
  | String c r => if is_space c then lstrip r else s
  end.

Fixpoint rstrip (s : string) : string :=
  match s with
  | EmptyString => EmptyString
  | String c r =>
      match rstrip r with
      | EmptyString => if is_space c then EmptyString else String c EmptyString
      | r' => String c r'
      end
  end.

Definition strip (s : string) : string := rstrip (lstrip s).

(** [s.replace(' ', '_')] *)
Fixpoint replace_space (s : string) : string :=
  match s with
  | EmptyString => EmptyString
  | String c r =>
      String (if bool_decide (c = " "%char) then "_"%char else c) (replace_space r)
  end.

Definition digit (n : nat) : ascii := ascii_of_nat (48 + n mod 10).

(** The decimal numeral of [n] ([fuel] bounds the number of digits). *)
Fixpoint decimal (fuel n : nat) (acc : string) : string :=
  match fuel with
  | O => acc
  | S f =>
      let acc' := String (digit n) acc in
      if n <? 10 then acc' else decimal f (n / 10) acc'
  end.

(** The format [{n:02d}]: decimal, left-padded with a zero to width two. *)
Definition fmt_02d (n : nat) : string :=
  if n <? 10 then String "0"%char (String (digit n) EmptyString)
  else decimal (S n) n EmptyString.

(** Truth value of an optional string: [None] and [''] are falsy. *)
Definition truthy (o : option string) : bool :=
  match o with
  | None => false
  | Some s => negb (string_eqb s "")
  end.

End Py.

(** ** Insertion-ordered dictionaries (Python [dict]) *)
Module Dict.
Section Ordered.
Context {V : Type}.

Definition t := list (string * V).

Fixpoint get (k : string) (d : t) : option V :=
match d with
| [] => None
| (k', v) :: r => if Py.string_eqb k k' then Some v else get k r
end.

Definition contains (k : string) (d : t) : bool :=
match get k d with Some _ => true | None => false end.

(** [d[k] = v]: an existing key keeps its position, a new key goes last. *)
Fixpoint set (k : string) (v : V) (d : t) : t :=
match d with
| [] => [(k, v)]
| (k', v') :: r =>
    if Py.string_eqb k k' then (k, v) :: r else (k', v') :: set k v r
end.

Definition keys (d : t) : list string := map fst d.
Definition values (d : t) : list V := map snd d.
End Ordered.
Arguments t : clear implicits.
End Dict.

(** ** The document *)

Record User := mkUser {
  password : string;
  role : string;
  user_id : option string        (* the built-in admin carries no id *)
}.

Record Patient := mkPatient {
  pat_id : option string;
  pat_name : string;
  pat_age : string;
  pat_gender : string
}.

Record Doctor := mkDoctor {
  doc_id : string;
  doc_name : string;
  doc_specialty : string
}.

Record Appointment := mkAppointment {
  appt_id : string;
  patient_id : option string;
  doctor_id : option string;     (* [None] for an unassigned emergency *)
  date : string;
  time : string;
  problem : string;
  status : string
}.

Record Referral := mkReferral {
  ref_patient_id : string;
  from_doc_id : option string;
  to_doc_id : string;
  ref_date : string;
  notes : string
}.

Record Report := mkReport {
  report_id : string;
  report_date : string;
  report_doctor_id : option string;
  report_file : option string;
  report_details : option string
}.

(** Patients are keyed by the session id, which Python lets be [None] when the
    session belongs to a user without an id; hence the [option string] keys. *)
Record Document := mkDocument {
  users : gmap string User;
  patients : gmap (option string) Patient;
  doctors : Dict.t Doctor;
  appointments : list Appointment;
  reports : gmap string (list Report);
  referrals : list Referral
}.

Record Session := mkSession {
  s_username : string;
  s_role : string;
  s_id : option string
}.

(** The object [pms]: the in-memory document [self.data], [self.current_user],
    and [store], the content of the JSON file behind [load_data]/[save_data]. *)
Record PMS := mkPMS {
  data : Document;
  current_user : option Session;
  store : Document
}.

Definition set_data (d : Document) (s : PMS) : PMS :=
  mkPMS d (current_user s) (store s).

(** [save_data(self.data)] *)
Definition save_data (s : PMS) : PMS :=
  mkPMS (data s) (current_user s) (data s).

(** [self.reload()] *)
Definition reload (s : PMS) : PMS :=
  mkPMS (store s) (current_user s) (store s).

Definition set_users (u : gmap string User) (d : Document) : Document :=
  mkDocument u (patients d) (doctors d) (appointments d) (reports d) (referrals d).
Definition set_patients (p : gmap (option string) Patient) (d : Document) : Document :=
  mkDocument (users d) p (doctors d) (appointments d) (reports d) (referrals d).
Definition set_doctors (x : Dict.t Doctor) (d : Document) : Document :=
  mkDocument (users d) (patients d) x (appointments d) (reports d) (referrals d).
Definition set_appointments (a : list Appointment) (d : Document) : Document :=
  mkDocument (users d) (patients d) (doctors d) a (reports d) (referrals d).
Definition set_reports (r : gmap string (list Report)) (d : Document) : Document :=
  mkDocument (users d) (patients d) (doctors d) (appointments d) r (referrals d).
Definition set_referrals (r : list Referral) (d : Document) : Document :=
  mkDocument (users d) (patients d) (doctors d) (appointments d) (reports d) r.

(** Result of a call: a returned value or a raised Python exception. *)
Inductive Outcome (A : Type) : Type :=
  | Returned (a : A)
  | Raised (exn : string).
Arguments Returned {A} a.
Arguments Raised {A} exn.

(** ** [list.sort(key=...)]

    Python's sort is stable; a stable sort has a single possible result, which
    the insertion sort below computes: an element is put in front of the first
    element of the sorted tail whose key is not smaller. *)
Section StableSort.
Context {A : Type} (key : A -> nat).

Fixpoint insert_by_key (x : A) (l : list A) : list A :=
  match l with
  | [] => [x]
  | y :: r => if key x <=? key y then x :: y :: r else y :: insert_by_key x r
  end.

Fixpoint sort_by_key (l : list A) : list A :=
  match l with
  | [] => []
  | x :: r => insert_by_key x (sort_by_key r)
  end.
End StableSort.

(** ** The slot table shared by both lineages

    [for h in range(lo, hi): for m in range(0, 60, 10): f"{h:02d}:{m:02d}"] *)
Definition range (lo hi : nat) : list nat := seq lo (hi - lo).
Definition range_step10 : list nat := map (fun i => 10 * i) (seq 0 6).

Definition fmt_slot (h m : nat) : string :=
  Py.fmt_02d h +:+ ":" +:+ Py.fmt_02d m.

Definition slots_between (lo hi : nat) : list string :=
  flat_map (fun h => map (fmt_slot h) range_step10) (range lo hi).

Definition slot_times : list string :=
  slots_between 9 12 ++ slots_between 14 18.

(** [str(appt.get('status', '')).strip().lower() == wanted] *)
Definition status_is (wanted : string) (a : Appointment) : bool :=
  Py.string_eqb (Py.lower (Py.strip (status a))) wanted.

Definition opt_eqb (a b : option string) : bool := bool_decide (a = b).

(** ** Further Python built-ins: [sorted] on strings, [in] and [rsplit] *)
Module PyStr.

(** [sorted(l)] for a list of strings: strings compare by code point, which
    on UTF-8 bytes is the byte-wise lexicographic order of [String.leb]. *)
Fixpoint insert_sorted (x : string) (l : list string) : list string :=
  match l with
  | [] => [x]
  | y :: r => if String.leb x y then x :: y :: r else y :: insert_sorted x r
  end.

Fixpoint sorted (l : list string) : list string :=
  match l with
  | [] => []
  | x :: r => insert_sorted x (sorted r)
  end.

(** ['.' in s] *)
Fixpoint has_dot (s : string) : bool :=
  match s with
  | EmptyString => false
  | String c r => bool_decide (c = "."%char) || has_dot r
  end.

(** What follows the last dot of [s], if [s] has a dot. *)
Fixpoint after_last_dot (s : string) : option string :=
  match s with
  | EmptyString => None
  | String c r =>
      match after_last_dot r with
      | Some e => Some e
      | None => if bool_decide (c = "."%char) then Some r else None
      end
  end.

(** [s.rsplit('.', 1)]: [[head, tail]] around the last dot, [[s]] without dot;
    [rsplit_dot_1 s] is element 1 of that list. *)
Definition rsplit_dot_1 (s : string) : Outcome string :=
  match after_last_dot s with
  | Some e => Returned e
  | None => Raised "IndexError"
  end.

End PyStr.

(** The counting loop of the traffic chart:
    [for appt in appointments: if approved(appt): counts[date] += 1],
    the dictionary starting empty. *)
Definition bump (day : string) (counts : Dict.t nat) : Dict.t nat :=
  Dict.set day (default 0 (Dict.get day counts) + 1) counts.

Definition count_by_date (approved : Appointment -> bool) (l : list Appointment)
  : Dict.t nat :=
  fold_left (fun counts a => if approved a then bump (date a) counts else counts)
            l [].

(** [[counts[d] for d in dates]] *)
Definition counts_at (counts : Dict.t nat) (dates : list string) : list nat :=
  map (fun d => default 0 (Dict.get d counts)) dates.

(** ** [src/pms_core.py]: the specialty-routing variant *)
Module Routing.

(** *** [login] *)
Definition login (username pw : string) (s : PMS) : bool * PMS :=
  match users (data s) !! username with
  | Some user_info =>
      if Py.string_eqb (password user_info) pw
      then (true,
            mkPMS (data s)
                  (Some (mkSession username (role user_info) (user_id user_info)))
                  (store s))
      else (false, s)
  | None => (false, s)
  end.

(** *** [add_doctor] *)
Inductive AddDoctorResult :=
  | UsernameTaken
  | DoctorCreated (name username id : string).

Definition add_doctor_message : string :=
  "Username already exists. Try a different name.".

Definition doctor_username (name : string) : string :=
  Py.replace_space (Py.lower name).

Definition add_doctor (gen_id name specialty pw : string) (s : PMS)
  : AddDoctorResult * PMS :=
  let doctor_id := gen_id in
  let username := doctor_username name in
  match users (data s) !! username with
  | Some _ => (UsernameTaken, s)
  | None =>
      let d1 := set_doctors
                  (Dict.set doctor_id (mkDoctor doctor_id name specialty)
                            (doctors (data s))) (data s) in
      let d2 := set_users
                  (<[username := mkUser pw "Doctor" (Some doctor_id)]> (users d1)) d1 in
      (DoctorCreated name username doctor_id, save_data (set_data d2 s))
  end.

(** *** [get_today_appointments]: the slot grid *)
Record Slot := mkSlot {
  slot_time : string;
  slot_status : string;
  slot_patient : string;
  slot_problem : string;
  slot_appt_id : option string
}.

Definition available (t : string) : Slot := mkSlot t "Available" "-" "-" None.

(** The inner loop: the first slot whose time is [appt_time] gets its four
    other fields overwritten by [mark], then [break]. *)
Fixpoint book_slot (appt_time : string) (mark : Slot -> Slot) (schedule : list Slot)
  : list Slot :=
  match schedule with
  | [] => []
  | slot :: rest =>
      if Py.string_eqb (slot_time slot) appt_time
      then mark slot :: rest
      else slot :: book_slot appt_time mark rest
  end.

Definition patient_name (d : Document) (pid : option string) : string :=
  match patients d !! pid with
  | Some p => pat_name p
  | None => "Unknown"
  end.

Definition on_schedule (doctor : option string) (today : string) (a : Appointment)
  : bool :=
  opt_eqb (doctor_id a) doctor && Py.string_eqb (date a) today
  && status_is "approved" a.

Definition booked_slot (d : Document) (a : Appointment) (slot : Slot) : Slot :=
  mkSlot (slot_time slot) "Booked" (patient_name d (patient_id a))
         (problem a) (Some (appt_id a)).

Definition schedule_step (d : Document) (doctor : option string) (today : string)
  (schedule : list Slot) (a : Appointment) : list Slot :=
  if on_schedule doctor today a
  then book_slot (Py.strip (time a)) (booked_slot d a) schedule
  else schedule.

Definition get_today_appointments (doctor : option string) (today : string)
  (d : Document) : list Slot :=
  fold_left (schedule_step d doctor today) (appointments d)
            (map available slot_times).

(** *** [get_emergency_cases] *)
Record EmergencyCase := mkEmergencyCase {
  e_id : string;
  e_patient_name : string;
  e_age : string;
  e_problem : string;
  e_time : string;
  e_assigned : option string
}.

Definition emergency_case (d : Document) (a : Appointment) : EmergencyCase :=
  mkEmergencyCase (appt_id a)
    (patient_name d (patient_id a))
    (match patients d !! patient_id a with Some p => pat_age p | None => "N/A" end)
    (problem a) (time a) (doctor_id a).

Definition visible_emergency (doctor : option string) (a : Appointment) : bool :=
  status_is "emergency" a
  && (opt_eqb (doctor_id a) doctor || negb (Py.truthy (doctor_id a))).

Definition get_emergency_cases (doctor : option string) (d : Document)
  : list EmergencyCase :=
  fold_left
    (fun emergencies a =>
       if visible_emergency doctor a
       then emergencies ++ [emergency_case d a]
       else emergencies)
    (appointments d) [].

(** *** [create_referral] *)
Inductive ReferralResult :=
  | PatientNotFound
  | TargetDoctorNotFound
  | ReferralCreated (patient : string).

Definition referral_message (r : ReferralResult) : string :=
  match r with
  | PatientNotFound => "Error: Patient ID not found."
  | TargetDoctorNotFound => "Error: Target Doctor ID not found."
  | ReferralCreated p => "Referral created successfully for patient " +:+ p +:+ "."
  end.

Definition create_referral (patient to_doc note today : string) (s : PMS)
  : Outcome ReferralResult * PMS :=
  match patients (data s) !! Some patient with
  | None => (Returned PatientNotFound, s)
  | Some _ =>
      if negb (Dict.contains to_doc (doctors (data s)))
      then (Returned TargetDoctorNotFound, s)
      else
        match current_user s with
        | None => (Raised "TypeError", s)
        | Some cu =>
            let referral := mkReferral patient (s_id cu) to_doc today note in
            let d' := set_referrals (referrals (data s) ++ [referral]) (data s) in
            (Returned (ReferralCreated patient), save_data (set_data d' s))
        end
  end.

(** *** [upload_report] *)
Inductive UploadResult :=
  | UploadPatientNotFound
  | ReportUploaded (id : string).

Definition upload_report (gen_id patient : string) (details file_name : option string)
  (today : string) (s : PMS) : Outcome UploadResult * PMS :=
  match patients (data s) !! Some patient with
  | None => (Returned UploadPatientNotFound, s)
  | Some _ =>
      match current_user s with
      | None => (Raised "TypeError", s)
      | Some cu =>
          let report :=
            mkReport gen_id today (s_id cu)
                     (if Py.truthy file_name then file_name else None)
                     (if Py.truthy details then details else None) in
          let old := default [] (reports (data s) !! patient) in
          let d' := set_reports (<[patient := old ++ [report]]> (reports (data s)))
                                (data s) in
          (Returned (ReportUploaded gen_id), save_data (set_data d' s))
      end
  end.

(** *** [book_appointment] *)
Definition problem_to_specialty : list (string * string) :=
  [ ("Heart", "Cardiology");
    ("Fever", "General Physician");
    ("Skin", "Dermatologist");
    ("Diabetes", "Endocrinologist");
    ("Bone", "Orthopedic");
    ("Can't say", "General Physician") ].

(** [problem_to_specialty.get(problem, "General Physician")] *)
Definition resolve_specialty (p : string) : string :=
  default "General Physician" (Dict.get p problem_to_specialty).

(** [[doc for doc in doctors.values() if doc['specialty'] == specialty]] *)
Definition candidates (specialty : string) (d : Document) : list Doctor :=
  List.filter (fun doc => Py.string_eqb (doc_specialty doc) specialty)
              (Dict.values (doctors d)).

(** [sum(1 for a in appointments if a['doctor_id']==d['id'] and a['date']==date)] *)
Definition same_day_count (d : Document) (day : string) (doc : Doctor) : nat :=
  length (List.filter
            (fun a => opt_eqb (doctor_id a) (Some (doc_id doc))
                      && Py.string_eqb (date a) day)
            (appointments d)).

Inductive BookingResult :=
  | NoDoctorAvailable (specialty : string)
  | Booked (doctor_name specialty : string).

Definition booking_message (r : BookingResult) : string :=
  match r with
  | NoDoctorAvailable sp => "No doctor available for " +:+ sp
  | Booked n sp =>
      "Appointment booked successfully with Dr. " +:+ n +:+ " (" +:+ sp +:+ ")"
  end.

Definition book_appointment (gen_pid gen_aid : string)
  (name age gender day tm prob : string) (s : PMS)
  : Outcome BookingResult * PMS :=
  match current_user s with
  | None => (Raised "AttributeError", s)
  | Some cu =>
      let pid := if Py.truthy (s_id cu) then s_id cu else Some gen_pid in
      let specialty := resolve_specialty prob in
      let docs := candidates specialty (data s) in
      match docs with
      | [] => (Returned (NoDoctorAvailable specialty), s)
      | _ :: _ =>
          match sort_by_key (same_day_count (data s) day) docs with
          | [] => (Raised "IndexError", s)
          | doctor :: _ =>
              let appointment :=
                mkAppointment gen_aid pid (Some (doc_id doctor)) day tm prob
                              "Approved" in
              let d' := set_appointments (appointments (data s) ++ [appointment])
                                         (data s) in
              (Returned (Booked (doc_name doctor) (doc_specialty doctor)),
               save_data (set_data d' s))
          end
      end
  end.

(** *** [log_emergency] *)
Definition log_emergency (gen_aid name age gender prob today now_hm : string)
  (s : PMS) : Outcome string * PMS :=
  match current_user s with
  | None => (Raised "TypeError", s)
  | Some cu =>
      let pid := s_id cu in
      let pats :=
        match patients (data s) !! pid with
        | Some _ => patients (data s)
        | None => <[pid := mkPatient pid name age gender]> (patients (data s))
        end in
      let emergency := mkAppointment gen_aid pid None today now_hm prob "Emergency" in
      let d' := set_appointments (appointments (data s) ++ [emergency])
                                 (set_patients pats (data s)) in
      (Returned gen_aid, save_data (set_data d' s))
  end.

(** *** [get_upcoming_checkup] *)
Record Upcoming := mkUpcoming {
  up_datetime : Z;
  up_date : string;
  up_time : string;
  up_doctor : string;
  up_problem : string
}.

Definition doctor_name_of (d : Document) (doc : option string) : string :=
  match doc with
  | Some k => match Dict.get k (doctors d) with
              | Some x => doc_name x
              | None => "N/A"
              end
  | None => "N/A"
  end.

Section Checkup.
(** [strptime s] is [datetime.strptime(s, '%Y-%m-%d %H:%M')]: [None] when it
    raises, otherwise the instant on a linear time axis. *)
Variable strptime : string -> option Z.

Definition appt_datetime (a : Appointment) : option Z :=
  strptime (date a +:+ " " +:+ time a).

Definition mine_approved (pid : option string) (a : Appointment) : bool :=
  opt_eqb (patient_id a) pid && status_is "approved" a.

Definition checkup_step (d : Document) (pid : option string) (now : Z)
  (upcoming : option Upcoming) (a : Appointment) : option Upcoming :=
  if mine_approved pid a then
    match appt_datetime a with
    | None => upcoming
    | Some appt_dt =>
        if (now <? appt_dt)%Z
           && match upcoming with
              | None => true
              | Some u => (appt_dt <? up_datetime u)%Z
              end
        then Some (mkUpcoming appt_dt (date a) (time a)
                              (doctor_name_of d (doctor_id a)) (problem a))
        else upcoming
    end
  else upcoming.

Definition get_upcoming_checkup (now : Z) (s : PMS) : Outcome (option Upcoming) :=
  match current_user s with
  | None => Raised "TypeError"
  | Some cu =>
      Returned (fold_left (checkup_step (data s) (s_id cu) now)
                          (appointments (data s)) None)
  end.
End Checkup.

(** *** [get_incoming_referrals] *)
Record IncomingReferral := mkIncomingReferral {
  in_date : string;
  in_patient_name : string;
  in_referred_by : string;
  in_notes : string
}.

Definition incoming_referral (d : Document) (r : Referral) : IncomingReferral :=
  mkIncomingReferral (ref_date r)
    (patient_name d (Some (ref_patient_id r)))
    (match from_doc_id r with
     | Some k => match Dict.get k (doctors d) with
                 | Some x => doc_name x
                 | None => "External Doctor"
                 end
     | None => "External Doctor"
     end)
    (notes r).

Definition get_incoming_referrals (doctor : option string) (d : Document)
  : list IncomingReferral :=
  fold_left
    (fun incoming r =>
       if opt_eqb (Some (to_doc_id r)) doctor
       then incoming ++ [incoming_referral d r]
       else incoming)
    (referrals d) [].

(** *** [get_patient_reports] *)
Record ReportEntry := mkReportEntry {
  re_id : string;
  re_date : string;
  re_doctor : string;
  re_details : string;
  re_file : option string
}.

Definition report_entry (d : Document) (r : Report) : ReportEntry :=
  mkReportEntry (report_id r) (report_date r)
    (match report_doctor_id r with
     | Some k => match Dict.get k (doctors d) with
                 | Some x => doc_name x
                 | None => "Unknown Doctor"
                 end
     | None => "Unknown Doctor"
     end)
    (default EmptyString (report_details r))
    (report_file r).

Definition get_patient_reports (patient : option string) (d : Document)
  : list ReportEntry :=
  let rs := match patient with
            | Some p => default [] (reports d !! p)
            | None => []
            end in
  fold_left (fun formatted r => formatted ++ [report_entry d r]) rs [].

(** *** [get_patient_enquiries] *)
Record Enquiry := mkEnquiry {
  q_date : string;
  q_doctor : string;
  q_problem : string;
  q_status : string
}.

Definition enquiry (d : Document) (a : Appointment) : Enquiry :=
  mkEnquiry (date a) (doctor_name_of d (doctor_id a)) (problem a) (status a).

Definition in_history (pid : option string) (a : Appointment) : bool :=
  opt_eqb (patient_id a) pid && negb (status_is "emergency" a).

Definition get_patient_enquiries (s : PMS) : Outcome (list Enquiry) :=
  match current_user s with
  | None => Raised "TypeError"
  | Some cu =>
      Returned
        (fold_left
           (fun hist a =>
              if in_history (s_id cu) a then hist ++ [enquiry (data s) a] else hist)
           (appointments (data s)) [])
  end.

(** *** [setup_initial_patient]

    Like the signup route it works on [load_data()], not on [self.data]. *)
Definition setup_initial_patient (gen_id : string) (s : PMS) : bool * PMS :=
  let d := store s in
  match users d !! "test_patient" with
  | Some _ => (false, s)
  | None =>
      let d1 := set_users
                  (<["test_patient" := mkUser "patientpass" "Patient" (Some gen_id)]>
                     (users d)) d in
      let d2 := set_patients
                  (<[Some gen_id := mkPatient (Some gen_id) "Test Patient" "35" "M"]>
                     (patients d1)) d1 in
      (true, mkPMS (data s) (current_user s) d2)
  end.

(** *** [plot_daily_patients], up to the call of the plotting library

    The function counts, sorts the dates, parses them (a date that does not
    parse raises [ValueError] outside the [try]) and hands both series to
    matplotlib, whose outcome decides the final message. *)
Inductive PlotResult :=
  | NoData
  | Chart (dt_dates : list Z) (counts : list nat).

Definition plot_message_no_data : string :=
  "No appointment data available to plot.".

Fixpoint parse_all (strptime_date : string -> option Z) (dates : list string)
  : option (list Z) :=
  match dates with
  | [] => Some []
  | d :: r =>
      match strptime_date d, parse_all strptime_date r with
      | Some z, Some zs => Some (z :: zs)
      | _, _ => None
      end
  end.

Definition plot_daily_patients (strptime_date : string -> option Z) (d : Document)
  : Outcome PlotResult :=
  let patient_counts := count_by_date (status_is "approved") (appointments d) in
  match patient_counts with
  | [] => Returned NoData
  | _ :: _ =>
      let dates := PyStr.sorted (Dict.keys patient_counts) in
      let counts := counts_at patient_counts dates in
      match parse_all strptime_date dates with
      | Some dt_dates => Returned (Chart dt_dates counts)
      | None => Raised "ValueError"
      end
  end.

End Routing.

(** ** [src/dsa_pbl/pms_core.py]: the variant with allowed times and a
       conflict check *)
Module Lineage.

(** The two loops building [allowed_times] are those of the slot grid. *)
Definition allowed_times : list string := slot_times.

Inductive BookingResult :=
  | InvalidSlot
  | NoDoctors
  | Conflict (tm day : string)
  | Booked (id doctor_name day tm : string).

Definition booking_message (r : BookingResult) : string :=
  match r with
  | InvalidSlot =>
      "❌ Please select a valid time between 09:00–12:00 or 14:00–18:00."
  | NoDoctors => "No doctors available currently. Please try again later."
  | Conflict tm day =>
      "❌ Doctor is already booked at " +:+ tm +:+ " on " +:+ day
      +:+ ". Please choose another slot."
  | Booked id n day tm =>
      "✅ Appointment booked successfully! ID: " +:+ id
      +:+ ". You are scheduled with Dr. " +:+ n +:+ " on " +:+ day
      +:+ " at " +:+ tm +:+ "."
  end.

(** The test of the conflict loop. *)
Definition clashes (assigned day tm : string) (a : Appointment) : bool :=
  opt_eqb (doctor_id a) (Some assigned)
  && Py.string_eqb (date a) day
  && Py.string_eqb (time a) tm
  && Py.string_eqb (status a) "Approved".

(** [if patient_id not in patients: patients[patient_id] = {...}] *)
Definition ensure_patient (pid : option string) (name age gender : string)
  (d : Document) : Document :=
  match patients d !! pid with
  | Some _ => d
  | None => set_patients (<[pid := mkPatient pid name age gender]> (patients d)) d
  end.

Definition book_appointment (gen_aid : string)
  (name age gender day tm prob : string) (s : PMS)
  : Outcome BookingResult * PMS :=
  match current_user s with
  | None => (Raised "TypeError", s)
  | Some cu =>
      let pid := s_id cu in
      let s1 := set_data (ensure_patient pid name age gender (data s)) s in
      if negb (existsb (Py.string_eqb tm) allowed_times)
      then (Returned InvalidSlot, s1)
      else
        match Dict.keys (doctors (data s1)) with
        | [] => (Returned NoDoctors, s1)
        | assigned :: _ =>
            if existsb (clashes assigned day tm) (appointments (data s1))
            then (Returned (Conflict tm day), s1)
            else
              let appointment :=
                mkAppointment gen_aid pid (Some assigned) day tm prob "Approved" in
              let d' := set_appointments (appointments (data s1) ++ [appointment])
                                         (data s1) in
              let doc_name :=
                match Dict.get assigned (doctors d') with
                | Some x => doc_name x
                | None => "Pending"
                end in
              (Returned (Booked gen_aid doc_name day tm), save_data (set_data d' s1))
        end
  end.

(** *** [get_today_appointments]: the list presentation *)
Record TodayEntry := mkTodayEntry {
  t_id : string;
  t_patient_name : string;
  t_age : string;
  t_gender : string;
  t_problem : string;
  t_time : string
}.

Definition today_entry (d : Document) (a : Appointment) : TodayEntry :=
  match patients d !! patient_id a with
  | Some p => mkTodayEntry (appt_id a) (pat_name p) (pat_age p) (pat_gender p)
                           (problem a) (time a)
  | None => mkTodayEntry (appt_id a) "Unknown" "N/A" "N/A" (problem a) (time a)
  end.

Definition on_list (doctor : option string) (today : string) (a : Appointment)
  : bool :=
  opt_eqb (doctor_id a) doctor && Py.string_eqb (date a) today
  && Py.string_eqb (status a) "Approved".

Definition get_today_appointments (doctor : option string) (today : string)
  (d : Document) : list TodayEntry :=
  fold_left
    (fun appts a => if on_list doctor today a then appts ++ [today_entry d a] else appts)
    (appointments d) [].

(** *** [log_emergency] *)
Definition log_emergency (gen_aid name age gender prob today now_hm : string)
  (s : PMS) : Outcome string * PMS :=
  match current_user s with
  | None => (Raised "TypeError", s)
  | Some cu =>
      let pid := s_id cu in
      let d1 := ensure_patient pid name age gender (data s) in
      let emergency := mkAppointment gen_aid pid None today now_hm prob "Emergency" in
      let d' := set_appointments (appointments d1 ++ [emergency]) d1 in
      (Returned gen_aid, save_data (set_data d' s))
  end.

End Lineage.

(** ** [src/app.py]: the signup and login routes *)
Module WebApp.

Inductive SignupResult :=
  | UsernameExists
  | AccountCreated (username id : string).

(** The form fields are stripped; the username is also lower-cased. *)
Definition signup_username (raw : string) : string := Py.lower (Py.strip raw).

(** The route works on a document of its own, [load_data()], and writes it
    back; [pms.data] is not reloaded here. *)
Definition signup (gen_id raw_username raw_password raw_name raw_age raw_gender : string)
  (s : PMS) : SignupResult * PMS :=
  let username := signup_username raw_username in
  let pw := Py.strip raw_password in
  let name := Py.strip raw_name in
  let age := Py.strip raw_age in
  let gender := Py.strip raw_gender in
  let d := store s in
  match users d !! username with
  | Some _ => (UsernameExists, s)
  | None =>
      let patient := gen_id in
      let d1 := set_users (<[username := mkUser pw "Patient" (Some patient)]> (users d)) d in
      let d2 := set_patients
                  (<[Some patient := mkPatient (Some patient) name age gender]>
                     (patients d1)) d1 in
      (AccountCreated username patient,
       mkPMS (data s) (Some (mkSession username "Patient" (Some patient))) d2)
  end.

(** The login route strips both fields and calls [pms.login]. *)
Definition login (raw_username raw_password : string) (s : PMS) : bool * PMS :=
  Routing.login (Py.strip raw_username) (Py.strip raw_password) s.

(** [allowed_file] *)
Definition ALLOWED_EXTENSIONS : list string := ["pdf"; "png"; "jpg"; "jpeg"].

Definition allowed_file (filename : string) : Outcome bool :=
  if PyStr.has_dot filename
  then match PyStr.rsplit_dot_1 filename with
       | Returned ext =>
           Returned (existsb (Py.string_eqb (Py.lower ext)) ALLOWED_EXTENSIONS)
       | Raised e => Raised e
       end
  else Returned false.

(** The body of [api_patient_counts]: reload, count the appointments whose
    status is the string Approved, answer the sorted dates and their counts. *)
Definition api_patient_counts (s : PMS) : (list string * list nat) * PMS :=
  let s' := reload s in
  let counts :=
    count_by_date (fun a => Py.string_eqb (status a) "Approved")
                  (appointments (data s')) in
  let dates := PyStr.sorted (Dict.keys counts) in
  ((dates, counts_at counts dates), s').

(** [logout] *)
Definition logout (s : PMS) : PMS := mkPMS (data s) None (store s).

End WebApp.

(** ** The operations that normalise text, over Python's own [str.lower] and
       [str.strip]

    Both built-ins are Unicode-aware library code ([str.lower] also maps
    accented capitals and can change the number of characters, [str.strip]
    also trims the no-break space).  As with [strptime], the definitions below
    take them as the parameters [str_lower] and [str_strip]; they follow the
    same source lines as their namesakes in [Routing] and [WebApp], which are
    their instances at [Py.lower] and [Py.strip], the two built-ins on ASCII
    text.  [s.replace(' ', '_')] stays [Py.replace_space]: in UTF-8 the byte
    of the space occurs in no other character. *)
Module Uni.
Section Builtins.
Variables (str_strip str_lower : string -> string).

(** [str(appt.get('status', '')).strip().lower() == wanted] *)
Definition status_is (wanted : string) (a : Appointment) : bool :=
  Py.string_eqb (str_lower (str_strip (status a))) wanted.

(** *** [get_today_appointments] of [src/pms_core.py] *)
Definition on_schedule (doctor : option string) (today : string) (a : Appointment)
  : bool :=
  opt_eqb (doctor_id a) doctor && Py.string_eqb (date a) today
  && status_is "approved" a.

Definition schedule_step (d : Document) (doctor : option string) (today : string)
  (schedule : list Routing.Slot) (a : Appointment) : list Routing.Slot :=
  if on_schedule doctor today a
  then Routing.book_slot (str_strip (time a)) (Routing.booked_slot d a) schedule
  else schedule.

Definition get_today_appointments (doctor : option string) (today : string)
  (d : Document) : list Routing.Slot :=
  fold_left (schedule_step d doctor today) (appointments d)
            (map Routing.available slot_times).

(** *** [add_doctor] of [src/pms_core.py] *)
Definition doctor_username (name : string) : string :=
  Py.replace_space (str_lower name).

Definition add_doctor (gen_id name specialty pw : string) (s : PMS)
  : Routing.AddDoctorResult * PMS :=
  let doctor_id := gen_id in
  let username := doctor_username name in
  match users (data s) !! username with
  | Some _ => (Routing.UsernameTaken, s)
  | None =>
      let d1 := set_doctors
                  (Dict.set doctor_id (mkDoctor doctor_id name specialty)
                            (doctors (data s))) (data s) in
      let d2 := set_users
                  (<[username := mkUser pw "Doctor" (Some doctor_id)]> (users d1)) d1 in
      (Routing.DoctorCreated name username doctor_id, save_data (set_data d2 s))
  end.

(** *** The signup and login routes of [src/app.py] *)
Definition signup_username (raw : string) : string := str_lower (str_strip raw).

Definition signup (gen_id raw_username raw_password raw_name raw_age raw_gender : string)
  (s : PMS) : WebApp.SignupResult * PMS :=
  let username := signup_username raw_username in
  let pw := str_strip raw_password in
  let name := str_strip raw_name in
  let age := str_strip raw_age in
  let gender := str_strip raw_gender in
  let d := store s in
  match users d !! username with
  | Some _ => (WebApp.UsernameExists, s)
  | None =>
      let patient := gen_id in
      let d1 := set_users (<[username := mkUser pw "Patient" (Some patient)]> (users d)) d in
      let d2 := set_patients
                  (<[Some patient := mkPatient (Some patient) name age gender]>
                     (patients d1)) d1 in
      (WebApp.AccountCreated username patient,
       mkPMS (data s) (Some (mkSession username "Patient" (Some patient))) d2)
  end.

Definition login (raw_username raw_password : string) (s : PMS) : bool * PMS :=
  Routing.login (str_strip raw_username) (str_strip raw_password) s.

End Builtins.
End Uni.

(** ** The mutating operations of [src/pms_core.py] behind one interface *)
Module Core.
Import Routing.

Inductive Op :=
  | Login (username pw : string)
  | AddDoctor (gen_id name specialty pw : string)
  | BookAppointment (gen_pid gen_aid name age gender day tm prob : string)
  | LogEmergency (gen_aid name age gender prob today now_hm : string)
  | CreateReferral (patient to_doc note today : string)
  | UploadReport (gen_id patient : string) (details file_name : option string)
                 (today : string).

Inductive Reply :=
  | LoginReply (ok : bool)
  | AddDoctorReply (r : AddDoctorResult)
  | BookingReply (r : Outcome BookingResult)
  | EmergencyReply (r : Outcome string)
  | ReferralReply (r : Outcome ReferralResult)
  | UploadReply (r : Outcome UploadResult).

Definition run (op : Op) (s : PMS) : Reply * PMS :=
  match op with
  | Login u p => let (r, s') := login u p s in (LoginReply r, s')
  | AddDoctor g n sp p => let (r, s') := add_doctor g n sp p s in (AddDoctorReply r, s')
  | BookAppointment gp ga n a g d t p =>
      let (r, s') := book_appointment gp ga n a g d t p s in (BookingReply r, s')
  | LogEmergency ga n a g p td hm =>
      let (r, s') := log_emergency ga n a g p td hm s in (EmergencyReply r, s')
  | CreateReferral pt td nt day =>
      let (r, s') := create_referral pt td nt day s in (ReferralReply r, s')
  | UploadReport g pt dt fn day =>
      let (r, s') := upload_report g pt dt fn day s in (UploadReply r, s')
  end.

(** The replies by which an operation reports a failure to its caller. *)
Definition failed (r : Reply) : bool :=
  match r with
  | LoginReply ok => negb ok
  | AddDoctorReply UsernameTaken => true
  | BookingReply (Returned (NoDoctorAvailable _)) => true
  | ReferralReply (Returned PatientNotFound) => true
  | ReferralReply (Returned TargetDoctorNotFound) => true
  | UploadReply (Returned UploadPatientNotFound) => true
  | _ => false
  end.

Definition raised (r : Reply) : bool :=
  match r with
  | BookingReply (Raised _) | EmergencyReply (Raised _)
  | ReferralReply (Raised _) | UploadReply (Raised _) => true
  | _ => false
  end.

End Core.

(** The failures of the lineage [book_appointment]. *)
Definition lineage_failed (r : Outcome Lineage.BookingResult) : bool :=
  match r with
  | Returned Lineage.InvalidSlot
  | Returned Lineage.NoDoctors
  | Returned (Lineage.Conflict _ _) => true
  | _ => false
  end.

(** ** Documents that follow the data model

    The status of an appointment is one of the two the operations write, and
    a doctor id, when present, is not the empty string. *)
Definition well_formed_appointment (a : Appointment) : Prop :=
  (status a = "Approved" \/ status a = "Emergency")
  /\ doctor_id a <> Some EmptyString.

Definition well_formed (d : Document) : Prop :=
  Forall well_formed_appointment (appointments d).

(** ** What the upcoming-checkup view is expected to pick *)
Section CheckupSpec.
Variable strptime : string -> option Z.
Variables (d : Document) (pid : option string) (now : Z).

(** [a], in [l], belongs to the patient, is approved, parses to [t], and [t]
    is after [now]. *)
Definition qualifies (l : list Appointment) (a : Appointment) (t : Z) : Prop :=
  In a l /\ Routing.mine_approved pid a = true
  /\ Routing.appt_datetime strptime a = Some t /\ (now < t)%Z.

Definition upcoming_of (a : Appointment) (t : Z) : Routing.Upcoming :=
  Routing.mkUpcoming t (date a) (time a)
    (Routing.doctor_name_of d (doctor_id a)) (problem a).

End CheckupSpec.

(** ** What a cell of the slot grid is expected to show

    The appointments of the doctor's schedule for the day whose trimmed time
    is [t], and the cell they give: the last of them, or an available slot. *)
Definition booked_at (doctor : option string) (today t : string) (a : Appointment)
  : bool :=
  Routing.on_schedule doctor today a && Py.string_eqb (Py.strip (time a)) t.

Definition grid_cell (d : Document) (doctor : option string) (today : string)
  (l : list Appointment) (t : string) : Routing.Slot :=
  match last (List.filter (booked_at doctor today t) l) with
  | Some a => Routing.booked_slot d a (Routing.available t)
  | None => Routing.available t
  end.

(** ** Invariants of the collections

    The doctors dictionary has one entry per key, and each record carries its
    key as id (what [add_doctor] writes). *)
Definition doctors_consistent (d : Document) : Prop :=
  NoDup (Dict.keys (doctors d))
  /\ forall k v, In (k, v) (doctors d) -> doc_id v = k.

(** The slot an Approved appointment occupies. *)
Definition slot_key (a : Appointment) : option string * string * string :=
  (doctor_id a, date a, time a).

Definition is_approved (a : Appointment) : bool :=
  Py.string_eqb (status a) "Approved".

(** No two Approved appointments share doctor, date and time. *)
Definition no_double_booking (l : list Appointment) : Prop :=
  NoDup (map slot_key (List.filter is_approved l)).

(** Every Approved appointment is at an allowed time. *)
Definition approved_in_slots (l : list Appointment) : Prop :=
  forall a, In a l -> status a = "Approved" -> In (time a) Lineage.allowed_times.

(** The Approved appointments of a doctor on a day. *)
Definition booked_on (k day : string) (l : list Appointment) : list Appointment :=
  List.filter
    (fun a => is_approved a && opt_eqb (doctor_id a) (Some k)
              && Py.string_eqb (date a) day) l.

(** ** ASCII text, on which [Py.lower] and [Py.strip] are the built-ins *)
Fixpoint is_ascii (s : string) : bool :=
  match s with
  | EmptyString => true
  | String c r => (nat_of_ascii c <? 128) && is_ascii r
  end.

(** ** What an entry of the slot grid shows

    With [shown t a] telling whether appointment [a] belongs in the slot of
    time [t]: the last such appointment of [l], or an available slot. *)
Definition cell_of (d : Document) (shown : string -> Appointment -> bool)
  (l : list Appointment) (t : string) : Routing.Slot :=
  match last (List.filter (shown t) l) with
  | Some a => Routing.booked_slot d a (Routing.available t)
  | None => Routing.available t
  end.

(** ** Characters of a derived username

    What [name.lower().replace(' ', '_')] does to one character, and the
    characters it leaves: neither a space nor an upper-case ASCII letter. *)
Definition username_char (c : ascii) : ascii :=
  if bool_decide (Py.lower_char c = " "%char) then "_"%char else Py.lower_char c.

Definition plain_char (c : ascii) : bool :=
  negb (bool_decide (c = " "%char))
  && negb ((65 <=? nat_of_ascii c) && (nat_of_ascii c <=? 90)).

(** ** A small clinic used in the examples *)
Module Clinic.

Definition dr_a : Doctor := mkDoctor "d1" "Dr. A" "Cardiology".
Definition dr_b : Doctor := mkDoctor "d2" "Dr. B" "Cardiology".
Definition dr_c : Doctor := mkDoctor "d3" "Dr. C" "General Physician".

Definition alice : Patient := mkPatient (Some "p1") "Alice" "30" "F".

Definition today : string := "2025-01-10".

Definition appt1 : Appointment :=
  mkAppointment "a1" (Some "p1") (Some "d2") today "09:00" "Heart" "Approved".
Definition appt2 : Appointment :=
  mkAppointment "a2" (Some "p1") (Some "d2") today "09:10" "Heart" "Approved".

Definition doc : Document :=
  mkDocument
    (<["alice" := mkUser "pw" "Patient" (Some "p1")]>
       (<["admin" := mkUser "adminpass" "Admin" None]> ∅))
    (<[Some "p1" := alice]> ∅)
    [("d1", dr_a); ("d2", dr_b); ("d3", dr_c)]
    [appt1; appt2]
    ∅
    [].

Definition as_patient : Session := mkSession "alice" "Patient" (Some "p1").
Definition as_doctor : Session := mkSession "dr._b" "Doctor" (Some "d2").

Definition pms : PMS := mkPMS doc (Some as_patient) doc.
Definition pms_doctor : PMS := mkPMS doc (Some as_doctor) doc.

(** The clinic after Alice booked "Heart" at 10:00: Dr. A holds that slot. *)
Definition pms_booked : PMS :=
  snd (Routing.book_appointment "px" "a3" "Alice" "30" "F" today "10:00" "Heart" pms).

(** An unassigned emergency next to the day's bookings. *)
Definition emergency1 : Appointment :=
  mkAppointment "e1" (Some "p1") None today "03:12" "Chest pain" "Emergency".

Definition er_doc : Document :=
  set_appointments [appt1; emergency1; appt2] doc.

(** [strptime] on the instants of the examples, in minutes of the day
    2025-01-10; any other string is rejected. *)
Definition clock (s : string) : option Z :=
  Dict.get s [ ("2025-01-10 09:00", 540%Z); ("2025-01-10 09:10", 550%Z);
               ("2025-01-10 10:00", 600%Z); ("2025-01-10 03:12", 192%Z) ].

(** Two bookings of Dr. B on the same day at 09:00. *)
Definition clash1 : Appointment :=
  mkAppointment "c1" (Some "p1") (Some "d2") today "09:00" "Heart" "Approved".
Definition clash2 : Appointment :=
  mkAppointment "c2" (Some "p2") (Some "d2") today "09:00" "Fever" "Approved".

Definition clash_doc : Document := set_appointments [clash1; clash2] doc.

(** [strptime] with the format of a date, on the day of the examples (its
    number of days since 1970-01-01). *)
Definition clock_day (s : string) : option Z :=
  Dict.get s [ ("2025-01-10", 20098%Z) ].

(** A day on which Dr. A, the first doctor, holds every allowed time. *)
Definition full_day : list Appointment :=
  map (fun t => mkAppointment ("f" +:+ t) (Some "p1") (Some "d1") today t "Heart"
                  "Approved")
      slot_times.

Definition pms_full : PMS :=
  mkPMS (set_appointments full_day doc) (Some as_patient)
        (set_appointments full_day doc).

(** The clinic on a day when Dr. A, first in the collection, has two
    appointments and Dr. B has none. *)
Definition busy1 : Appointment :=
  mkAppointment "b1" (Some "p1") (Some "d1") today "09:00" "Heart" "Approved".
Definition busy2 : Appointment :=
  mkAppointment "b2" (Some "p1") (Some "d1") today "09:10" "Heart" "Approved".

Definition pms_a_busy : PMS :=
  mkPMS (set_appointments [busy1; busy2] doc) (Some as_patient)
        (set_appointments [busy1; busy2] doc).

(** A patient account whose Patient record is missing from the document. *)
Definition as_newcomer : Session := mkSession "bob" "Patient" (Some "p9").
Definition pms_newcomer : PMS := mkPMS doc (Some as_newcomer) doc.

End Clinic.

(** * Properties *)

Example fmt_02d_9 : Py.fmt_02d 9 = "09". Proof. reflexivity. Qed.
Example fmt_02d_50 : Py.fmt_02d 50 = "50". Proof. reflexivity. Qed.
Example strip_ex : Py.strip "  Ab c  " = "Ab c". Proof. reflexivity. Qed.
Example lower_ex : Py.lower "Jane Doe" = "jane doe". Proof. reflexivity. Qed.
Example doctor_username_ex : Routing.doctor_username "Jane Doe" = "jane_doe".
Proof. reflexivity. Qed.

Lemma string_eqb_true a b : Py.string_eqb a b = true <-> a = b.
Proof. unfold Py.string_eqb. apply bool_decide_eq_true. Qed.

Lemma string_eqb_false a b : Py.string_eqb a b = false <-> a <> b.
Proof. unfold Py.string_eqb. apply bool_decide_eq_false. Qed.

Lemma string_eqb_refl a : Py.string_eqb a a = true.
Proof. now apply string_eqb_true. Qed.

Lemma opt_eqb_true a b : opt_eqb a b = true <-> a = b.
Proof. unfold opt_eqb. apply bool_decide_eq_true. Qed.

Lemma opt_eqb_false a b : opt_eqb a b = false <-> a <> b.
Proof. unfold opt_eqb. apply bool_decide_eq_false. Qed.

(** ** The slot table *)

Lemma in_range lo hi h : In h (range lo hi) <-> lo <= h < hi.
Proof. unfold range. rewrite in_seq. lia. Qed.

Lemma in_range_step10 m : In m range_step10 <-> m < 60 /\ m mod 10 = 0.
Proof.
  unfold range_step10. rewrite in_map_iff. split.
  - intros (i & <- & Hi). apply in_seq in Hi. split; [lia |].
    rewrite Nat.mul_comm. apply Nat.Div0.mod_mul.
  - intros [Hlt Hmod]. exists (m / 10). split.
    + pose proof (Nat.div_mod_eq m 10). lia.
    + apply in_seq. pose proof (Nat.div_mod_eq m 10). lia.
Qed.

Lemma in_slots_between lo hi t :
  In t (slots_between lo hi) <->
  exists h m, lo <= h < hi /\ m < 60 /\ m mod 10 = 0 /\ t = fmt_slot h m.
Proof.
  unfold slots_between. rewrite in_flat_map. split.
  - intros (h & Hh & Ht). apply in_map_iff in Ht as (m & <- & Hm).
    apply in_range in Hh. apply in_range_step10 in Hm.
    exists h, m. tauto.
  - intros (h & m & Hh & Hm1 & Hm2 & ->). exists h. split.
    + now apply in_range.
    + apply in_map_iff. exists m. split; [reflexivity |].
      now apply in_range_step10.
Qed.

Lemma in_slot_times t :
  In t slot_times <->
  exists h m, (9 <= h <= 11 \/ 14 <= h <= 17) /\ m < 60 /\ m mod 10 = 0
              /\ t = fmt_slot h m.
Proof.
  unfold slot_times. rewrite in_app_iff, !in_slots_between. split.
  - intros [(h & m & Hh & Hm)|(h & m & Hh & Hm)]; exists h, m;
      (split; [lia | exact Hm]).
  - intros (h & m & [Hh|Hh] & Hm); [left | right]; exists h, m;
      (split; [lia | exact Hm]).
Qed.

Lemma slot_times_length : length slot_times = 42.
Proof. reflexivity. Qed.

Lemma slot_times_NoDup : NoDup slot_times.
Proof. apply (bool_decide_unpack _). vm_compute. exact I. Qed.

Lemma existsb_string_eqb t l : existsb (Py.string_eqb t) l = true <-> In t l.
Proof.
  rewrite existsb_exists. split.
  - intros (x & Hx & Heq). apply string_eqb_true in Heq. now subst.
  - intros H. exists t. split; [exact H | apply string_eqb_refl].
Qed.

(** C5.  The allowed times are the 10-minute boundaries of 09:00-11:50 and
    14:00-17:50: 18 morning and 24 afternoon slots, 42 in all, without
    repetition; and the lineage [book_appointment] answers [InvalidSlot] for
    any other time, whatever the doctors and appointments are, appending no
    appointment and persisting nothing. *)
Theorem allowed_times_invalid_slot :
  (length (slots_between 9 12) = 18 /\ length (slots_between 14 18) = 24
   /\ length Lineage.allowed_times = 42 /\ NoDup Lineage.allowed_times)
  /\ (forall t, In t Lineage.allowed_times <->
        exists h m, (9 <= h <= 11 \/ 14 <= h <= 17) /\ m < 60 /\ m mod 10 = 0
                    /\ t = fmt_slot h m)
  /\ (forall gen_aid name age gender day tm prob s cu,
        current_user s = Some cu ->
        ~ In tm Lineage.allowed_times ->
        let r := Lineage.book_appointment gen_aid name age gender day tm prob s in
        fst r = Returned Lineage.InvalidSlot
        /\ appointments (data (snd r)) = appointments (data s)
        /\ doctors (data (snd r)) = doctors (data s)
        /\ store (snd r) = store s).
Proof.
  split; [| split].
  - repeat split; try reflexivity. exact slot_times_NoDup.
  - exact in_slot_times.
  - intros gen_aid name age gender day tm prob s cu Hcu Hnot r. subst r.
    unfold Lineage.book_appointment. rewrite Hcu.
    assert (E : existsb (Py.string_eqb tm) Lineage.allowed_times = false).
    { apply not_true_is_false. intros H. apply Hnot.
      now apply existsb_string_eqb. }
    rewrite E. simpl.
    unfold Lineage.ensure_patient.
    destruct (patients (data s) !! s_id cu); simpl; auto.
Qed.

Lemma allowed_times_invalid_slot_witness :
  current_user Clinic.pms = Some Clinic.as_patient
  /\ ~ In "08:00" Lineage.allowed_times
  /\ fst (Lineage.book_appointment "a9" "Alice" "30" "F" Clinic.today "08:00"
            "Heart" Clinic.pms) = Returned Lineage.InvalidSlot.
Proof.
  assert (Hcu : current_user Clinic.pms = Some Clinic.as_patient) by reflexivity.
  assert (Hout : ~ In "08:00" Lineage.allowed_times).
  { intros H. apply existsb_string_eqb in H. vm_compute in H. discriminate. }
  split; [exact Hcu | split; [exact Hout |]].
  exact (proj1 (proj2 (proj2 allowed_times_invalid_slot)
                  "a9" "Alice" "30" "F" Clinic.today "08:00" "Heart"
                  Clinic.pms Clinic.as_patient Hcu Hout)).
Defined.

(** ** Stable sort: the head is the first element of least key *)
Section SortHead.
Context {A : Type} (key : A -> nat).

Lemma insert_by_key_head x l :
  hd_error (insert_by_key key x l) =
  match l with
  | [] => Some x
  | y :: _ => if key x <=? key y then Some x else Some y
  end.
Proof. destruct l as [|y r]; simpl; [reflexivity |]. now destruct (key x <=? key y). Qed.

Lemma sort_by_key_nil l : sort_by_key key l = [] -> l = [].
Proof.
  destruct l as [|x r]; [reflexivity |]. simpl.
  destruct (sort_by_key key r) as [|y t]; simpl; [discriminate |].
  destruct (key x <=? key y); discriminate.
Qed.

Lemma sort_by_key_head l :
  l <> [] ->
  exists pre d post,
    l = pre ++ d :: post
    /\ hd_error (sort_by_key key l) = Some d
    /\ (forall x, In x pre -> key d < key x)
    /\ (forall x, In x post -> key d <= key x).
Proof.
  induction l as [|x r IH]; [congruence |]. intros _.
  destruct r as [|y r'].
  - exists [], x, []. simpl. repeat split; intros ? [].
  - destruct IH as (pre & d & post & Hr & Hhd & Hpre & Hpost); [discriminate |].
    change (sort_by_key key (x :: y :: r'))
      with (insert_by_key key x (sort_by_key key (y :: r'))).
    rewrite insert_by_key_head.
    destruct (sort_by_key key (y :: r')) as [|d' t] eqn:Hs; [discriminate |].
    simpl in Hhd. injection Hhd as ->.
    destruct (key x <=? key d) eqn:Hle.
    + apply Nat.leb_le in Hle.
      exists [], x, (y :: r').
      split; [reflexivity |]. split; [reflexivity |]. split; [intros ? [] |].
      intros z Hz. rewrite Hr in Hz. apply in_app_iff in Hz as [Hz|[<-|Hz]].
      * specialize (Hpre z Hz). lia.
      * exact Hle.
      * specialize (Hpost z Hz). lia.
    + apply Nat.leb_gt in Hle.
      exists (x :: pre), d, post. rewrite Hr.
      split; [reflexivity |]. split; [reflexivity |]. split; [| exact Hpost].
      intros z [<-|Hz]; [exact Hle | now apply Hpre].
Qed.
(** The three properties that determine the result of a stable sort. *)
Lemma insert_by_key_perm x l : Permutation (insert_by_key key x l) (x :: l).
Proof.
  induction l as [|y r IH]; simpl; [reflexivity |].
  destruct (key x <=? key y); [reflexivity |].
  rewrite IH. apply perm_swap.
Qed.

Lemma sort_by_key_perm l : Permutation (sort_by_key key l) l.
Proof.
  induction l as [|x r IH]; simpl; [reflexivity |].
  rewrite insert_by_key_perm. now rewrite IH.
Qed.

Lemma insert_by_key_sorted x l :
  StronglySorted (fun a b => key a <= key b) l ->
  StronglySorted (fun a b => key a <= key b) (insert_by_key key x l).
Proof.
  induction 1 as [|y r Hs IH Hall]; simpl.
  - repeat constructor.
  - destruct (key x <=? key y) eqn:E.
    + apply Nat.leb_le in E. constructor; [now constructor |].
      constructor; [exact E |].
      rewrite List.Forall_forall in *. intros z Hz. specialize (Hall z Hz). lia.
    + apply Nat.leb_gt in E. constructor; [exact IH |].
      rewrite List.Forall_forall in *. intros z Hz.
      apply (Permutation_in _ (insert_by_key_perm x r)) in Hz as [<-|Hz];
        [lia | now apply Hall].
Qed.

Lemma sort_by_key_sorted l :
  StronglySorted (fun a b => key a <= key b) (sort_by_key key l).
Proof.
  induction l as [|x r IH]; simpl; [constructor | now apply insert_by_key_sorted].
Qed.

Lemma insert_by_key_stable k x l :
  List.filter (fun a => key a =? k) (insert_by_key key x l)
  = List.filter (fun a => key a =? k) (x :: l).
Proof.
  induction l as [|y r IH]; [reflexivity |]. simpl insert_by_key.
  destruct (key x <=? key y) eqn:E; [reflexivity |].
  apply Nat.leb_gt in E. simpl in *. rewrite IH.
  destruct (key x =? k) eqn:Ex; [| reflexivity].
  destruct (key y =? k) eqn:Ey; [| reflexivity].
  apply Nat.eqb_eq in Ex, Ey. lia.
Qed.

(** Elements of equal key keep their relative order. *)
Lemma sort_by_key_stable k l :
  List.filter (fun a => key a =? k) (sort_by_key key l)
  = List.filter (fun a => key a =? k) l.
Proof.
  induction l as [|x r IH]; [reflexivity |]. simpl sort_by_key.
  rewrite insert_by_key_stable. simpl. now rewrite IH.
Qed.
End SortHead.

(** ** Booking in the specialty-routing variant *)

Lemma candidates_spec sp d doc :
  In doc (Routing.candidates sp d) <->
  In doc (Dict.values (doctors d)) /\ doc_specialty doc = sp.
Proof.
  unfold Routing.candidates. rewrite filter_In. now rewrite string_eqb_true.
Qed.

(** The successful path of [book_appointment], spelled out. *)
Lemma book_appointment_choice
  gen_pid gen_aid name age gender day tm prob s cu :
  current_user s = Some cu ->
  Routing.candidates (Routing.resolve_specialty prob) (data s) <> [] ->
  exists pre d post,
    Routing.candidates (Routing.resolve_specialty prob) (data s) = pre ++ d :: post
    /\ (forall x, In x pre ->
          Routing.same_day_count (data s) day d < Routing.same_day_count (data s) day x)
    /\ (forall x, In x post ->
          Routing.same_day_count (data s) day d <= Routing.same_day_count (data s) day x)
    /\ Routing.book_appointment gen_pid gen_aid name age gender day tm prob s
       = (Returned (Routing.Booked (doc_name d) (doc_specialty d)),
          save_data
            (set_data
               (set_appointments
                  (appointments (data s)
                   ++ [mkAppointment gen_aid
                         (if Py.truthy (s_id cu) then s_id cu else Some gen_pid)
                         (Some (doc_id d)) day tm prob "Approved"])
                  (data s)) s)).
Proof.
  intros Hcu Hne.
  destruct (sort_by_key_head (Routing.same_day_count (data s) day) _ Hne)
    as (pre & d & post & Hsplit & Hhd & Hpre & Hpost).
  exists pre, d, post. repeat split; try assumption.
  unfold Routing.book_appointment. rewrite Hcu.
  destruct (Routing.candidates _ _) as [|c cs] eqn:Hc; [congruence |].
  destruct (sort_by_key _ (c :: cs)) as [|d' t]; [discriminate |].
  simpl in Hhd. injection Hhd as ->. reflexivity.
Qed.

(** The scenario of the specification: Dr. A has no appointment on the day,
    Dr. B has two; a "Heart" booking goes to Dr. A. *)
Example heart_goes_to_dr_a :
  fst (Routing.book_appointment "px" "a3" "Alice" "30" "F" Clinic.today "10:00"
         "Heart" Clinic.pms)
  = Returned (Routing.Booked "Dr. A" "Cardiology").
Proof. vm_compute. reflexivity. Qed.

Lemma dict_get_not_in {V} k (d : Dict.t V) :
  ~ In k (Dict.keys d) -> Dict.get k d = None.
Proof.
  induction d as [|[k' v] r IH]; simpl; [reflexivity |]. intros Hn.
  destruct (Py.string_eqb k k') eqn:E.
  - apply string_eqb_true in E. subst. exfalso. apply Hn. now left.
  - apply IH. intros H. apply Hn. now right.
Qed.

Lemma dict_contains_keys {V} k (d : Dict.t V) :
  Dict.contains k d = true <-> In k (Dict.keys d).
Proof.
  unfold Dict.contains. induction d as [|[k' v] r IH]; simpl.
  - split; [discriminate | intros []].
  - destruct (Py.string_eqb k k') eqn:E.
    + apply string_eqb_true in E. subst. split; [now left | reflexivity].
    + apply string_eqb_false in E. rewrite IH. split; [now right |].
      intros [H|H]; [congruence | exact H].
Qed.

Example specialty_is_case_sensitive :
  Routing.candidates "cardiology" Clinic.doc = []
  /\ Routing.candidates "Cardiology" Clinic.doc = [Clinic.dr_a; Clinic.dr_b].
Proof. split; reflexivity. Qed.

(** C2.  The specialty comes from the fixed table, "General Physician" being
    the answer for every problem outside it; the candidates are the doctors, in
    the order of the collection, whose specialty is that very string; without
    a candidate the booking returns [NoDoctorAvailable] with the specialty and
    leaves the whole state as it was. *)
Theorem specialty_routing :
  (Routing.resolve_specialty "Heart" = "Cardiology"
   /\ Routing.resolve_specialty "Fever" = "General Physician")
  /\ (forall p sp, In (p, sp) Routing.problem_to_specialty ->
        Routing.resolve_specialty p = sp)
  /\ (forall p, ~ In p (Dict.keys Routing.problem_to_specialty) ->
        Routing.resolve_specialty p = "General Physician")
  /\ (forall sp d,
        Routing.candidates sp d
        = List.filter (fun x => bool_decide (doc_specialty x = sp))
            (Dict.values (doctors d))
        /\ forall x, In x (Routing.candidates sp d) <->
                     In x (Dict.values (doctors d)) /\ doc_specialty x = sp)
  /\ (forall gen_pid gen_aid name age gender day tm prob s cu,
        current_user s = Some cu ->
        Routing.candidates (Routing.resolve_specialty prob) (data s) = [] ->
        let r := Routing.book_appointment gen_pid gen_aid name age gender day tm
                   prob s in
        r = (Returned (Routing.NoDoctorAvailable (Routing.resolve_specialty prob)), s)
        /\ Routing.booking_message
             (Routing.NoDoctorAvailable (Routing.resolve_specialty prob))
           = "No doctor available for " +:+ Routing.resolve_specialty prob).
Proof.
  split; [split; reflexivity |]. split; [| split; [| split]].
  - intros p sp H. simpl in H.
    repeat (destruct H as [H|H]; [injection H as <- <-; reflexivity |]).
    destruct H.
  - intros p Hp. unfold Routing.resolve_specialty.
    now rewrite (dict_get_not_in _ _ Hp).
  - intros sp d. split; [reflexivity |]. intros x. apply candidates_spec.
  - intros gen_pid gen_aid name age gender day tm prob s cu Hcu Hnone r. subst r.
    unfold Routing.book_appointment. rewrite Hcu, Hnone. split; reflexivity.
Qed.

Lemma specialty_routing_witness :
  current_user Clinic.pms = Some Clinic.as_patient
  /\ Routing.candidates (Routing.resolve_specialty "Skin") (data Clinic.pms) = []
  /\ Routing.book_appointment "px" "a3" "Alice" "30" "F" Clinic.today "10:00"
       "Skin" Clinic.pms
     = (Returned (Routing.NoDoctorAvailable "Dermatologist"), Clinic.pms).
Proof.
  assert (Hcu : current_user Clinic.pms = Some Clinic.as_patient) by reflexivity.
  assert (Hnone : Routing.candidates (Routing.resolve_specialty "Skin")
                    (data Clinic.pms) = []) by reflexivity.
  split; [exact Hcu | split; [exact Hnone |]].
  exact (proj1 (proj2 (proj2 (proj2 (proj2 specialty_routing)))
                  "px" "a3" "Alice" "30" "F" Clinic.today "10:00" "Skin"
                  Clinic.pms Clinic.as_patient Hcu Hnone)).
Defined.

Lemma existsb_clashes assigned day tm l :
  existsb (Lineage.clashes assigned day tm) l = true <->
  exists a, In a l /\ doctor_id a = Some assigned /\ date a = day /\ time a = tm
            /\ status a = "Approved".
Proof.
  rewrite existsb_exists. unfold Lineage.clashes.
  split; intros (a & Hin & H); exists a; (split; [exact Hin |]).
  - rewrite !andb_true_iff, opt_eqb_true, !string_eqb_true in H. tauto.
  - rewrite !andb_true_iff, opt_eqb_true, !string_eqb_true. tauto.
Qed.

Lemma ensure_patient_appointments pid name age gender d :
  appointments (Lineage.ensure_patient pid name age gender d) = appointments d.
Proof. unfold Lineage.ensure_patient. now destruct (patients d !! pid). Qed.

Lemma ensure_patient_doctors pid name age gender d :
  doctors (Lineage.ensure_patient pid name age gender d) = doctors d.
Proof. unfold Lineage.ensure_patient. now destruct (patients d !! pid). Qed.

(** C3.  The routing variant has no clash test: with a candidate at hand the
    booking always appends one Approved appointment for the chosen doctor, and
    it does so on a state where that doctor already holds the same date and
    time.  The lineage variant, for an allowed time, answers [Conflict] and
    appends nothing when the first doctor of the collection already has an
    Approved appointment at that date and time. *)
Theorem double_booking_by_variant :
  (forall gen_pid gen_aid name age gender day tm prob s cu,
     current_user s = Some cu ->
     Routing.candidates (Routing.resolve_specialty prob) (data s) <> [] ->
     let r := Routing.book_appointment gen_pid gen_aid name age gender day tm prob s in
     exists d pid,
       In d (Routing.candidates (Routing.resolve_specialty prob) (data s))
       /\ fst r = Returned (Routing.Booked (doc_name d) (doc_specialty d))
       /\ appointments (data (snd r))
          = appointments (data s)
            ++ [mkAppointment gen_aid pid (Some (doc_id d)) day tm prob "Approved"]
       /\ store (snd r) = data (snd r))
  /\ (let r := Routing.book_appointment "px" "a4" "Alice" "30" "F" Clinic.today
                 "10:00" "Heart" Clinic.pms_booked in
      existsb (Lineage.clashes "d1" Clinic.today "10:00")
        (appointments (data Clinic.pms_booked)) = true
      /\ fst r = Returned (Routing.Booked "Dr. A" "Cardiology")
      /\ appointments (data (snd r))
         = appointments (data Clinic.pms_booked)
           ++ [mkAppointment "a4" (Some "p1") (Some "d1") Clinic.today "10:00"
                 "Heart" "Approved"])
  /\ (forall gen_aid name age gender day tm prob s cu assigned rest,
        current_user s = Some cu ->
        Dict.keys (doctors (data s)) = assigned :: rest ->
        (exists a, In a (appointments (data s))
                   /\ doctor_id a = Some assigned /\ date a = day /\ time a = tm
                   /\ status a = "Approved") ->
        let r := Lineage.book_appointment gen_aid name age gender day tm prob s in
        (In tm Lineage.allowed_times -> fst r = Returned (Lineage.Conflict tm day))
        /\ (~ In tm Lineage.allowed_times -> fst r = Returned Lineage.InvalidSlot)
        /\ lineage_failed (fst r) = true
        /\ appointments (data (snd r)) = appointments (data s)
        /\ store (snd r) = store s).
Proof.
  split; [| split].
  - intros gen_pid gen_aid name age gender day tm prob s cu Hcu Hne r.
    destruct (book_appointment_choice gen_pid gen_aid name age gender day tm
                prob s cu Hcu Hne)
      as (pre & d & post & Hsplit & _ & _ & Hrun).
    exists d, (if Py.truthy (s_id cu) then s_id cu else Some gen_pid).
    subst r. rewrite Hrun, Hsplit. split; [apply in_elt |].
    repeat split.
  - vm_compute. repeat split.
  - intros gen_aid name age gender day tm prob s cu assigned rest
           Hcu Hkeys Hclash r. subst r.
    unfold Lineage.book_appointment. rewrite Hcu.
    destruct (existsb (Py.string_eqb tm) Lineage.allowed_times) eqn:Hin; simpl.
    + rewrite ensure_patient_doctors, Hkeys, ensure_patient_appointments.
      apply existsb_clashes in Hclash. rewrite Hclash. simpl.
      rewrite ensure_patient_appointments.
      apply existsb_string_eqb in Hin.
      repeat split; [intros Hn; contradiction].
    + rewrite ensure_patient_appointments.
      assert (Hn : ~ In tm Lineage.allowed_times).
      { intros H. apply existsb_string_eqb in H. congruence. }
      repeat split; [intros H; contradiction].
Qed.

Lemma double_booking_by_variant_witness :
  (exists d pid,
     In d (Routing.candidates (Routing.resolve_specialty "Heart")
             (data Clinic.pms_booked))
     /\ fst (Routing.book_appointment "px" "a4" "Alice" "30" "F" Clinic.today
               "10:00" "Heart" Clinic.pms_booked)
        = Returned (Routing.Booked (doc_name d) (doc_specialty d))
     /\ appointments
          (data (snd (Routing.book_appointment "px" "a4" "Alice" "30" "F"
                        Clinic.today "10:00" "Heart" Clinic.pms_booked)))
        = appointments (data Clinic.pms_booked)
          ++ [mkAppointment "a4" pid (Some (doc_id d)) Clinic.today "10:00" "Heart"
                "Approved"]
     /\ store (snd (Routing.book_appointment "px" "a4" "Alice" "30" "F"
                      Clinic.today "10:00" "Heart" Clinic.pms_booked))
        = data (snd (Routing.book_appointment "px" "a4" "Alice" "30" "F"
                       Clinic.today "10:00" "Heart" Clinic.pms_booked)))
  /\ fst (Lineage.book_appointment "a5" "Alice" "30" "F" Clinic.today "10:00"
            "Heart" Clinic.pms_booked)
     = Returned (Lineage.Conflict "10:00" Clinic.today)
  /\ appointments
       (data (snd (Lineage.book_appointment "a5" "Alice" "30" "F" Clinic.today
                     "10:00" "Heart" Clinic.pms_booked)))
     = appointments (data Clinic.pms_booked)
  /\ store (snd (Lineage.book_appointment "a5" "Alice" "30" "F" Clinic.today
                   "10:00" "Heart" Clinic.pms_booked))
     = store Clinic.pms_booked.
Proof.
  split.
  - apply (proj1 double_booking_by_variant "px" "a4" "Alice" "30" "F"
             Clinic.today "10:00" "Heart" Clinic.pms_booked Clinic.as_patient).
    + reflexivity.
    + vm_compute. discriminate.
  - assert (Hin : In "10:00" Lineage.allowed_times).
    { apply existsb_string_eqb. vm_compute. reflexivity. }
    assert (Hclash : exists a, In a (appointments (data Clinic.pms_booked))
                               /\ doctor_id a = Some "d1" /\ date a = Clinic.today
                               /\ time a = "10:00" /\ status a = "Approved").
    { apply existsb_clashes. vm_compute. reflexivity. }
    pose proof (proj2 (proj2 double_booking_by_variant) "a5" "Alice" "30" "F"
                  Clinic.today "10:00" "Heart" Clinic.pms_booked Clinic.as_patient
                  "d1" ["d2"; "d3"] eq_refl eq_refl Hclash) as H.
    cbv zeta in H. destruct H as (Hc & _ & _ & Ha & Hs).
    split; [exact (Hc Hin) | split; [exact Ha | exact Hs]].
Defined.

(** ** Referrals *)

(** C9.  Under a logged-in session, [create_referral] succeeds exactly when
    the patient id is a key of the patients collection and the target doctor
    id is a key of the doctors collection; each failure names the id that was
    not found and changes nothing; success appends one referral, whose
    referring doctor is the session's id, and saves; nothing compares the
    referring doctor with the target, so a doctor can refer to themself. *)
Theorem create_referral_spec patient to_doc note today s cu :
  current_user s = Some cu ->
  let r := Routing.create_referral patient to_doc note today s in
  (fst r = Returned (Routing.ReferralCreated patient) <->
     is_Some (patients (data s) !! Some patient)
     /\ In to_doc (Dict.keys (doctors (data s))))
  /\ (patients (data s) !! Some patient = None ->
        r = (Returned Routing.PatientNotFound, s))
  /\ (is_Some (patients (data s) !! Some patient) ->
      ~ In to_doc (Dict.keys (doctors (data s))) ->
        r = (Returned Routing.TargetDoctorNotFound, s))
  /\ (fst r = Returned (Routing.ReferralCreated patient) ->
        referrals (data (snd r))
        = referrals (data s) ++ [mkReferral patient (s_id cu) to_doc today note]
        /\ length (referrals (data (snd r))) = S (length (referrals (data s)))
        /\ store (snd r) = data (snd r))
  /\ (s_id cu = Some to_doc ->
      is_Some (patients (data s) !! Some patient) ->
      In to_doc (Dict.keys (doctors (data s))) ->
        fst r = Returned (Routing.ReferralCreated patient)
        /\ last (referrals (data (snd r)))
           = Some (mkReferral patient (Some to_doc) to_doc today note)).
Proof.
  intros Hcu r. subst r. unfold Routing.create_referral. rewrite Hcu.
  destruct (patients (data s) !! Some patient) as [p|] eqn:Hp.
  - destruct (Dict.contains to_doc (doctors (data s))) eqn:Hd; simpl.
    + apply dict_contains_keys in Hd.
      split; [split; [intros _; split; [eauto | exact Hd] | reflexivity] |].
      split; [discriminate |]. split; [intros _ Hn; contradiction |].
      split.
      * intros _. rewrite length_app. simpl. repeat split. lia.
      * intros Hid _ _. split; [reflexivity |]. rewrite Hid.
        apply last_snoc.
    + assert (Hn : ~ In to_doc (Dict.keys (doctors (data s)))).
      { intros H. apply dict_contains_keys in H. congruence. }
      split; [split; [discriminate | intros [_ H]; contradiction] |].
      split; [discriminate |]. split; [reflexivity |].
      split; [discriminate |]. intros _ _ H. contradiction.
  - simpl.
    split; [split; [discriminate | intros [[x Hx] _]; discriminate] |].
    split; [reflexivity |]. split; [intros [x Hx]; discriminate |].
    split; [discriminate |]. intros _ [x Hx]. discriminate.
Qed.

Lemma create_referral_spec_witness :
  fst (Routing.create_referral "p1" "d2" "second opinion" Clinic.today
         Clinic.pms_doctor)
  = Returned (Routing.ReferralCreated "p1")
  /\ last (referrals
             (data (snd (Routing.create_referral "p1" "d2" "second opinion"
                           Clinic.today Clinic.pms_doctor))))
     = Some (mkReferral "p1" (Some "d2") "d2" Clinic.today "second opinion").
Proof.
  pose proof (create_referral_spec "p1" "d2" "second opinion" Clinic.today
                Clinic.pms_doctor Clinic.as_doctor eq_refl) as H.
  cbv zeta in H. destruct H as (_ & _ & _ & _ & Hself).
  apply Hself.
  - reflexivity.
  - exists Clinic.alice. vm_compute. reflexivity.
  - vm_compute. auto.
Defined.

(** ** The emergency view *)

Lemma get_emergency_cases_filter doctor d :
  Routing.get_emergency_cases doctor d
  = map (Routing.emergency_case d)
      (List.filter (Routing.visible_emergency doctor) (appointments d)).
Proof.
  unfold Routing.get_emergency_cases.
  enough (G : forall l acc,
             fold_left
               (fun emergencies a =>
                  if Routing.visible_emergency doctor a
                  then emergencies ++ [Routing.emergency_case d a]
                  else emergencies) l acc
             = acc ++ map (Routing.emergency_case d)
                        (List.filter (Routing.visible_emergency doctor) l))
    by apply (G _ []).
  induction l as [|a l IH]; intros acc; simpl.
  - now rewrite app_nil_r.
  - rewrite IH. destruct (Routing.visible_emergency doctor a); simpl.
    + now rewrite <- app_assoc.
    + reflexivity.
Qed.

Lemma visible_emergency_well_formed doctor a :
  well_formed_appointment a ->
  Routing.visible_emergency doctor a
  = bool_decide (status a = "Emergency")
    && (bool_decide (doctor_id a = doctor) || bool_decide (doctor_id a = None)).
Proof.
  intros [Hst Hid]. unfold Routing.visible_emergency, status_is, opt_eqb.
  f_equal.
  - destruct Hst as [-> | ->]; reflexivity.
  - f_equal. destruct (doctor_id a) as [x|]; [| reflexivity].
    simpl. rewrite negb_involutive. apply string_eqb_false. congruence.
Qed.


Lemma er_doc_well_formed : well_formed Clinic.er_doc.
Proof.
  unfold well_formed. simpl.
  repeat (constructor; [split; [simpl; auto | discriminate] |]).
  constructor.
Qed.


(** ** The upcoming checkup *)
Section CheckupProps.
Variable strptime : string -> option Z.
Variables (d : Document) (pid : option string) (now : Z).

Local Abbreviation qualifies := (qualifies strptime pid now).
Local Abbreviation upcoming_of := (upcoming_of d).

Lemma qualifies_snoc l x a t :
  qualifies (l ++ [x]) a t <->
  qualifies l a t
  \/ (a = x /\ Routing.mine_approved pid a = true
      /\ Routing.appt_datetime strptime a = Some t /\ (now < t)%Z).
Proof.
  unfold qualifies. rewrite in_app_iff. simpl. split.
  - intros ([H|[H|[]]] & H1); [left; tauto | right; split; [now symmetry | exact H1]].
  - intros [(H & H1)|(H & H1)]; (split; [| exact H1]); [now left |].
    right. left. now symmetry.
Qed.

Lemma checkup_fold_spec l :
  match fold_left (Routing.checkup_step strptime d pid now) l None with
  | Some u =>
      (exists a, qualifies l a (Routing.up_datetime u)
                 /\ u = upcoming_of a (Routing.up_datetime u))
      /\ forall a t, qualifies l a t -> (Routing.up_datetime u <= t)%Z
  | None => forall a t, ~ qualifies l a t
  end.
Proof.
  induction l as [|x l IH] using rev_ind.
  - simpl. intros a t (H & _). destruct H.
  - rewrite fold_left_app. simpl.
    set (acc := fold_left (Routing.checkup_step strptime d pid now) l None) in *.
    unfold Routing.checkup_step.
    destruct (Routing.mine_approved pid x) eqn:Hm.
    2:{ destruct acc as [u|].
        - destruct IH as ((a & Hq & Hu) & Hmin). split.
          + exists a. split; [apply qualifies_snoc; now left | exact Hu].
          + intros a' t' Hq'. apply qualifies_snoc in Hq' as [Hq'|(-> & Hq' & _)];
              [exact (Hmin _ _ Hq') | congruence].
        - intros a t Hq. apply qualifies_snoc in Hq as [Hq|(-> & Hq & _)];
            [exact (IH _ _ Hq) | congruence]. }
    destruct (Routing.appt_datetime strptime x) as [dt|] eqn:Hdt.
    2:{ destruct acc as [u|].
        - destruct IH as ((a & Hq & Hu) & Hmin). split.
          + exists a. split; [apply qualifies_snoc; now left | exact Hu].
          + intros a' t' Hq'.
            apply qualifies_snoc in Hq' as [Hq'|(-> & _ & Hq' & _)];
              [exact (Hmin _ _ Hq') | congruence].
        - intros a t Hq. apply qualifies_snoc in Hq as [Hq|(-> & _ & Hq & _)];
            [exact (IH _ _ Hq) | congruence]. }
    destruct (now <? dt)%Z eqn:Hnow; simpl.
    2:{ apply Z.ltb_ge in Hnow. destruct acc as [u|].
        - destruct IH as ((a & Hq & Hu) & Hmin). split.
          + exists a. split; [apply qualifies_snoc; now left | exact Hu].
          + intros a' t' Hq'.
            apply qualifies_snoc in Hq' as [Hq'|(-> & _ & Hq' & Hlt)];
              [exact (Hmin _ _ Hq') |].
            rewrite Hdt in Hq'. injection Hq' as <-. lia.
        - intros a t Hq.
          apply qualifies_snoc in Hq as [Hq|(-> & _ & Hq & Hlt)];
            [exact (IH _ _ Hq) |].
          rewrite Hdt in Hq. injection Hq as <-. lia. }
    apply Z.ltb_lt in Hnow. destruct acc as [u|].
    + destruct IH as ((a & Hq & Hu) & Hmin).
      destruct (dt <? Routing.up_datetime u)%Z eqn:Hlt; simpl.
      * apply Z.ltb_lt in Hlt. split.
        -- exists x. split; [| reflexivity].
           apply qualifies_snoc. right. auto.
        -- intros a' t' Hq'.
           apply qualifies_snoc in Hq' as [Hq'|(-> & _ & Hq' & _)].
           ++ specialize (Hmin _ _ Hq'). lia.
           ++ rewrite Hdt in Hq'. injection Hq' as <-. lia.
      * apply Z.ltb_ge in Hlt. split.
        -- exists a. split; [apply qualifies_snoc; now left | exact Hu].
        -- intros a' t' Hq'.
           apply qualifies_snoc in Hq' as [Hq'|(-> & _ & Hq' & _)];
             [exact (Hmin _ _ Hq') |].
           rewrite Hdt in Hq'. injection Hq' as <-. exact Hlt.
    + split.
      * exists x. split; [| reflexivity]. apply qualifies_snoc. right. auto.
      * intros a' t' Hq'.
        apply qualifies_snoc in Hq' as [Hq'|(-> & _ & Hq' & _)];
          [now destruct (IH a' t') |].
        rewrite Hdt in Hq'. injection Hq' as <-. simpl. lia.
Qed.
End CheckupProps.

Lemma mine_approved_well_formed pid a :
  well_formed_appointment a ->
  Routing.mine_approved pid a = true <-> patient_id a = pid /\ status a = "Approved".
Proof.
  intros [Hst _]. unfold Routing.mine_approved, status_is.
  rewrite andb_true_iff, opt_eqb_true.
  destruct Hst as [H | H]; rewrite H; simpl; intuition discriminate.
Qed.


Lemma clinic_doc_well_formed : well_formed Clinic.doc.
Proof.
  unfold well_formed. simpl.
  repeat (constructor; [split; [simpl; auto | discriminate] |]).
  constructor.
Qed.

Example upcoming_checkup_clinic :
  Routing.get_upcoming_checkup Clinic.clock 545 Clinic.pms
  = Returned (Some (Routing.mkUpcoming 550 Clinic.today "09:10" "Dr. B" "Heart")).
Proof. vm_compute. reflexivity. Qed.


(** ** The slot grid *)

Lemma book_slot_map (f : string -> Routing.Slot) t0 mark ts :
  NoDup ts ->
  (forall t, Routing.slot_time (f t) = t) ->
  Routing.book_slot t0 mark (map f ts)
  = map (fun t => if Py.string_eqb t t0 then mark (f t) else f t) ts.
Proof.
  intros Hnd Hf. induction Hnd as [|t r Hnotin Hnd IH]; simpl; [reflexivity |].
  rewrite Hf. destruct (Py.string_eqb t t0) eqn:E.
  - apply string_eqb_true in E. subst t0. f_equal.
    apply map_ext_in. intros t' Hin.
    destruct (Py.string_eqb t' t) eqn:E'; [| reflexivity].
    apply string_eqb_true in E'. subst t'. exfalso. apply Hnotin.
    now apply list_elem_of_In.
  - now rewrite IH.
Qed.

Lemma grid_cell_time d doctor today l t :
  Routing.slot_time (grid_cell d doctor today l t) = t.
Proof.
  unfold grid_cell.
  now destruct (last (List.filter (booked_at doctor today t) l)).
Qed.

Lemma booked_slot_overwrites d a slot t :
  Routing.slot_time slot = t ->
  Routing.booked_slot d a slot = Routing.booked_slot d a (Routing.available t).
Proof. intros <-. reflexivity. Qed.

Lemma grid_cell_snoc d doctor today l a t :
  grid_cell d doctor today (l ++ [a]) t
  = if booked_at doctor today t a
    then Routing.booked_slot d a (grid_cell d doctor today l t)
    else grid_cell d doctor today l t.
Proof.
  unfold grid_cell. rewrite List.filter_app. simpl.
  destruct (booked_at doctor today t a).
  - rewrite last_snoc. symmetry. apply booked_slot_overwrites.
    now destruct (last _).
  - now rewrite app_nil_r.
Qed.

Lemma schedule_step_cells d doctor today ts l a :
  NoDup ts ->
  Routing.schedule_step d doctor today (map (grid_cell d doctor today l) ts) a
  = map (grid_cell d doctor today (l ++ [a])) ts.
Proof.
  intros Hnd. unfold Routing.schedule_step.
  destruct (Routing.on_schedule doctor today a) eqn:Hon.
  - rewrite book_slot_map by (auto using grid_cell_time).
    apply map_ext. intros t. rewrite grid_cell_snoc. unfold booked_at.
    rewrite Hon. simpl.
    destruct (Py.string_eqb t (Py.strip (time a))) eqn:E.
    + apply string_eqb_true in E. subst t. now rewrite string_eqb_refl.
    + apply string_eqb_false in E.
      destruct (Py.string_eqb (Py.strip (time a)) t) eqn:E'; [| reflexivity].
      apply string_eqb_true in E'. congruence.
  - apply map_ext. intros t. rewrite grid_cell_snoc. unfold booked_at.
    now rewrite Hon.
Qed.

Lemma schedule_fold_cells d doctor today ts l l0 :
  NoDup ts ->
  fold_left (Routing.schedule_step d doctor today) l
    (map (grid_cell d doctor today l0) ts)
  = map (grid_cell d doctor today (l0 ++ l)) ts.
Proof.
  intros Hnd. revert l0. induction l as [|a l IH]; intros l0; simpl.
  - now rewrite app_nil_r.
  - rewrite schedule_step_cells by exact Hnd. rewrite IH.
    now rewrite <- app_assoc.
Qed.

(** Counterexample to C10 as written: with two approved bookings of the same
    doctor at 09:00 today, the 09:00 entry shows the second one, not the
    first. *)
Lemma today_grid_first_not_shown :
  exists slot,
    In slot (Routing.get_today_appointments (Some "d2") Clinic.today Clinic.clash_doc)
    /\ Routing.slot_time slot = "09:00"
    /\ Routing.slot_appt_id slot = Some (appt_id Clinic.clash2)
    /\ Routing.slot_appt_id slot <> Some (appt_id Clinic.clash1).
Proof.
  exists (Routing.booked_slot Clinic.clash_doc Clinic.clash2
            (Routing.available "09:00")).
  split; [| split; [| split]].
  - vm_compute. now left.
  - reflexivity.
  - reflexivity.
  - vm_compute. discriminate.
Qed.

(** ** Failures and the document *)

Lemma run_failed_unchanged op s :
  Core.failed (fst (Core.run op s)) = true -> snd (Core.run op s) = s.
Proof.
  destruct op; simpl.
  - unfold Routing.login.
    destruct (users (data s) !! username) as [u|]; [| reflexivity].
    destruct (Py.string_eqb (password u) pw); [discriminate | reflexivity].
  - unfold Routing.add_doctor.
    destruct (users (data s) !! Routing.doctor_username name);
      [reflexivity | discriminate].
  - unfold Routing.book_appointment.
    destruct (current_user s); [| discriminate].
    destruct (Routing.candidates _ _) as [|c cs]; [reflexivity |].
    destruct (sort_by_key _ _); discriminate.
  - unfold Routing.log_emergency. destruct (current_user s); discriminate.
  - unfold Routing.create_referral.
    destruct (patients (data s) !! Some patient); [| reflexivity].
    destruct (Dict.contains to_doc (doctors (data s))); simpl; [| reflexivity].
    destruct (current_user s); discriminate.
  - unfold Routing.upload_report.
    destruct (patients (data s) !! Some patient); [| reflexivity].
    destruct (current_user s); discriminate.
Qed.

Lemma run_raised_unchanged op s :
  Core.raised (fst (Core.run op s)) = true -> snd (Core.run op s) = s.
Proof.
  destruct op; simpl.
  - unfold Routing.login.
    destruct (users (data s) !! username) as [u|]; [| discriminate].
    destruct (Py.string_eqb (password u) pw); discriminate.
  - unfold Routing.add_doctor.
    destruct (users (data s) !! Routing.doctor_username name); discriminate.
  - unfold Routing.book_appointment.
    destruct (current_user s); [| reflexivity].
    destruct (Routing.candidates _ _) as [|c cs]; [discriminate |].
    destruct (sort_by_key _ _); [reflexivity | discriminate].
  - unfold Routing.log_emergency. destruct (current_user s); [discriminate | reflexivity].
  - unfold Routing.create_referral.
    destruct (patients (data s) !! Some patient); [| discriminate].
    destruct (Dict.contains to_doc (doctors (data s))); simpl; [| discriminate].
    destruct (current_user s); [discriminate | reflexivity].
  - unfold Routing.upload_report.
    destruct (patients (data s) !! Some patient); [| discriminate].
    destruct (current_user s); [discriminate | reflexivity].
Qed.

Lemma run_store op s :
  store (snd (Core.run op s)) = store s
  \/ (Core.failed (fst (Core.run op s)) = false
      /\ Core.raised (fst (Core.run op s)) = false
      /\ store (snd (Core.run op s)) = data (snd (Core.run op s))).
Proof.
  destruct (Core.failed (fst (Core.run op s))) eqn:Hf.
  { left. now rewrite run_failed_unchanged. }
  destruct (Core.raised (fst (Core.run op s))) eqn:Hr.
  { left. now rewrite run_raised_unchanged. }
  destruct op; simpl in *.
  - left. unfold Routing.login.
    destruct (users (data s) !! username) as [u|]; [| reflexivity].
    destruct (Py.string_eqb (password u) pw); reflexivity.
  - unfold Routing.add_doctor in *.
    destruct (users (data s) !! Routing.doctor_username name);
      [discriminate | right; auto].
  - unfold Routing.book_appointment in *.
    destruct (current_user s); [| discriminate].
    destruct (Routing.candidates _ _) as [|c cs]; [discriminate |].
    destruct (sort_by_key _ _); [discriminate | right; auto].
  - unfold Routing.log_emergency in *.
    destruct (current_user s); [right; auto | discriminate].
  - unfold Routing.create_referral in *.
    destruct (patients (data s) !! Some patient); [| discriminate].
    destruct (Dict.contains to_doc (doctors (data s))); simpl in *; [| discriminate].
    destruct (current_user s); [right; auto | discriminate].
  - unfold Routing.upload_report in *.
    destruct (patients (data s) !! Some patient); [| discriminate].
    destruct (current_user s); [right; auto | discriminate].
Qed.

Lemma lineage_book_failed gen_aid name age gender day tm prob s :
  lineage_failed
    (fst (Lineage.book_appointment gen_aid name age gender day tm prob s)) = true ->
  exists cu,
    current_user s = Some cu
    /\ snd (Lineage.book_appointment gen_aid name age gender day tm prob s)
       = set_data (Lineage.ensure_patient (s_id cu) name age gender (data s)) s.
Proof.
  unfold Lineage.book_appointment.
  destruct (current_user s) as [cu|]; [| discriminate].
  intros H. exists cu. split; [reflexivity |].
  destruct (negb (existsb (Py.string_eqb tm) Lineage.allowed_times)); [reflexivity |].
  destruct (Dict.keys _) as [|assigned rest]; [reflexivity |].
  destruct (existsb _ _); [reflexivity | discriminate].
Qed.




(** ** Signup and login *)

(** A signup with a username that is free after normalisation stores one User
    of role Patient and one Patient, under the same generated id, and a login
    with the stored username and password succeeds once [pms] is reloaded. *)
Lemma signup_creates_account gen_id raw_u raw_p raw_n raw_a raw_g s :
  users (store s) !! WebApp.signup_username raw_u = None ->
  let r := WebApp.signup gen_id raw_u raw_p raw_n raw_a raw_g s in
  fst r = WebApp.AccountCreated (WebApp.signup_username raw_u) gen_id
  /\ users (store (snd r))
     = <[WebApp.signup_username raw_u := mkUser (Py.strip raw_p) "Patient" (Some gen_id)]>
         (users (store s))
  /\ patients (store (snd r))
     = <[Some gen_id := mkPatient (Some gen_id) (Py.strip raw_n) (Py.strip raw_a)
                          (Py.strip raw_g)]>
         (patients (store s))
  /\ size (users (store (snd r))) = S (size (users (store s)))
  /\ fst (Routing.login (WebApp.signup_username raw_u) (Py.strip raw_p)
            (reload (snd r))) = true.
Proof.
  intros Hfree r. subst r. unfold WebApp.signup. rewrite Hfree. simpl.
  split; [reflexivity |]. split; [reflexivity |]. split; [reflexivity |].
  split; [now apply map_size_insert_None |].
  unfold Routing.login. simpl. rewrite lookup_insert_eq. simpl.
  now rewrite string_eqb_refl.
Qed.

(** C8 at a failing input.  Signing up as "Carol" stores the account under
    "carol", with matching User and Patient ids; the login route, which only
    strips the username, then rejects "Carol" with the right password, while
    "carol" is accepted after a reload; before any reload [pms.data] is the
    old document and the login route rejects "carol" as well. *)
Theorem signup_login_case_mismatch :
  let r := WebApp.signup "p7" "Carol" "secret" "Carol K" "52" "F" Clinic.pms in
  users (store Clinic.pms) !! WebApp.signup_username "Carol" = None
  /\ fst r = WebApp.AccountCreated "carol" "p7"
  /\ users (store (snd r)) !! "carol" = Some (mkUser "secret" "Patient" (Some "p7"))
  /\ patients (store (snd r)) !! Some "p7"
     = Some (mkPatient (Some "p7") "Carol K" "52" "F")
  /\ fst (WebApp.login "Carol" "secret" (reload (snd r))) = false
  /\ fst (WebApp.login "carol" "secret" (reload (snd r))) = true
  /\ fst (WebApp.login "carol" "secret" (snd r)) = false.
Proof. cbv zeta. repeat split; vm_compute; reflexivity. Qed.

(** * Further properties of the code *)

(** ** Ordered dictionaries *)

Lemma dict_get_set_eq {V} k (v : V) d : Dict.get k (Dict.set k v d) = Some v.
Proof.
  induction d as [|[k' v'] r IH]; simpl.
  - now rewrite string_eqb_refl.
  - destruct (Py.string_eqb k k') eqn:E; simpl.
    + now rewrite string_eqb_refl.
    + now rewrite E.
Qed.

Lemma dict_set_fresh {V} k (v : V) d :
  ~ In k (Dict.keys d) -> Dict.set k v d = d ++ [(k, v)].
Proof.
  induction d as [|[k' v'] r IH]; simpl; [reflexivity |]. intros Hn.
  destruct (Py.string_eqb k k') eqn:E.
  - apply string_eqb_true in E. subst. exfalso. apply Hn. now left.
  - rewrite IH; [reflexivity |]. intros H. apply Hn. now right.
Qed.

Lemma dict_set_keys_present {V} k (v : V) d :
  In k (Dict.keys d) -> Dict.keys (Dict.set k v d) = Dict.keys d.
Proof.
  induction d as [|[k' v'] r IH]; simpl; [intros [] |]. intros Hin.
  destruct (Py.string_eqb k k') eqn:E; simpl.
  - apply string_eqb_true in E. now subst.
  - apply string_eqb_false in E. destruct Hin as [H|H]; [congruence |].
    now rewrite IH.
Qed.

Lemma dict_set_in {V} k (v : V) d k0 v0 :
  In (k0, v0) (Dict.set k v d) -> (k0 = k /\ v0 = v) \/ In (k0, v0) d.
Proof.
  induction d as [|[k' v'] r IH]; simpl.
  - intros [[= <- <-]|[]]. now left.
  - destruct (Py.string_eqb k k') eqn:E.
    + intros [[= <- <-]|H]; [now left | right; now right].
    + intros [[= <- <-]|H]; [right; now left |].
      destruct (IH H) as [?|?]; [now left | right; now right].
Qed.

Lemma dict_get_in {V} k (v : V) d :
  NoDup (Dict.keys d) -> In (k, v) d -> Dict.get k d = Some v.
Proof.
  induction d as [|[k' v'] r IH]; simpl; [intros _ [] |].
  intros Hnd [[= -> ->]|Hin].
  - now rewrite string_eqb_refl.
  - apply NoDup_cons in Hnd as [Hnotin Hnd].
    destruct (Py.string_eqb k k') eqn:E.
    + apply string_eqb_true in E. subst k'. exfalso. apply Hnotin.
      apply list_elem_of_In. apply (in_map fst) in Hin. exact Hin.
    + now apply IH.
Qed.

Lemma dict_keys_in {V} k (d : Dict.t V) :
  In k (Dict.keys d) <-> exists v, In (k, v) d.
Proof.
  unfold Dict.keys. rewrite in_map_iff. split.
  - intros ([k' v] & <- & H). now exists v.
  - intros (v & H). now exists (k, v).
Qed.

(** ** Doctor accounts *)

Lemma doctors_consistent_get d doc :
  doctors_consistent d -> In doc (Dict.values (doctors d)) ->
  Dict.get (doc_id doc) (doctors d) = Some doc.
Proof.
  intros [Hnd Hid] Hin. unfold Dict.values in Hin.
  apply in_map_iff in Hin as ([k v] & <- & Hin). simpl.
  rewrite (Hid k v Hin). now apply dict_get_in.
Qed.

(** X3.  [add_doctor] keeps the doctors dictionary consistent (one entry per
    key, each record carrying its key as id), also when the generated id is
    already a key, in which case the old record is replaced in place. *)
Theorem add_doctor_keeps_doctors_consistent gen_id name specialty pw s :
  doctors_consistent (data s) ->
  doctors_consistent (data (snd (Routing.add_doctor gen_id name specialty pw s))).
Proof.
  intros [Hnd Hid]. unfold Routing.add_doctor.
  destruct (users (data s) !! Routing.doctor_username name); [now split |].
  unfold doctors_consistent. simpl. split.
  - destruct (decide (gen_id ∈ Dict.keys (doctors (data s)))) as [Hin|Hout];
      rewrite list_elem_of_In in *.
    + now rewrite dict_set_keys_present.
    + rewrite dict_set_fresh by exact Hout.
      unfold Dict.keys. rewrite map_app. simpl.
      apply NoDup_app. split; [exact Hnd |]. split.
      * intros x Hx Hk. apply list_elem_of_In in Hk. destruct Hk as [<-|[]].
        apply Hout. now apply list_elem_of_In.
      * apply NoDup_singleton.
  - intros k v Hin. apply dict_set_in in Hin as [[-> ->]|Hin]; [reflexivity |].
    now apply Hid.
Qed.

Lemma clinic_doctors_consistent : doctors_consistent Clinic.doc.
Proof.
  split.
  - apply (bool_decide_unpack _). vm_compute. exact I.
  - intros k v Hin. simpl in Hin.
    repeat (destruct Hin as [[= <- <-]|Hin]; [reflexivity |]). destruct Hin.
Qed.

Lemma add_doctor_keeps_doctors_consistent_witness :
  doctors_consistent
    (data (snd (Routing.add_doctor "d2" "Jane Doe" "Orthopedic" "s3cret" Clinic.pms))).
Proof.
  apply (add_doctor_keeps_doctors_consistent "d2" "Jane Doe" "Orthopedic" "s3cret"
           Clinic.pms).
  exact clinic_doctors_consistent.
Defined.

(** ** The loops that collect a view *)

Lemma fold_append_filter {A B} (p : A -> bool) (f : A -> B) l acc :
  fold_left (fun out a => if p a then out ++ [f a] else out) l acc
  = acc ++ map f (List.filter p l).
Proof.
  revert acc. induction l as [|a l IH]; intros acc; simpl.
  - now rewrite app_nil_r.
  - rewrite IH. destruct (p a); simpl; [now rewrite <- app_assoc | reflexivity].
Qed.

Lemma fold_append_map {A B} (f : A -> B) l acc :
  fold_left (fun out a => out ++ [f a]) l acc = acc ++ map f l.
Proof.
  revert acc. induction l as [|a l IH]; intros acc; simpl.
  - now rewrite app_nil_r.
  - rewrite IH. now rewrite <- app_assoc.
Qed.

Lemma get_incoming_referrals_filter doctor d :
  Routing.get_incoming_referrals doctor d
  = map (Routing.incoming_referral d)
      (List.filter (fun r => opt_eqb (Some (to_doc_id r)) doctor) (referrals d)).
Proof. unfold Routing.get_incoming_referrals. now rewrite fold_append_filter. Qed.

Lemma get_patient_enquiries_filter s cu :
  current_user s = Some cu ->
  Routing.get_patient_enquiries s
  = Returned (map (Routing.enquiry (data s))
                (List.filter (Routing.in_history (s_id cu)) (appointments (data s)))).
Proof.
  intros Hcu. unfold Routing.get_patient_enquiries. rewrite Hcu.
  now rewrite fold_append_filter.
Qed.

Lemma get_patient_reports_map p d :
  Routing.get_patient_reports (Some p) d
  = map (Routing.report_entry d) (default [] (reports d !! p)).
Proof. unfold Routing.get_patient_reports. now rewrite fold_append_map. Qed.

Lemma today_grid_cells doctor today d :
  Routing.get_today_appointments doctor today d
  = map (grid_cell d doctor today (appointments d)) slot_times.
Proof.
  unfold Routing.get_today_appointments.
  change (map Routing.available slot_times)
    with (map (grid_cell d doctor today []) slot_times).
  now rewrite schedule_fold_cells by exact slot_times_NoDup.
Qed.

(** ** Nothing is deleted *)

(** ** Emergencies *)

(** X6.  An emergency logged under a session is at once the last case of
    every doctor's emergency view, unassigned, under the name and age of the
    patient's existing record, or under the supplied name and age when the
    patient had no record; and the document is saved. *)
Theorem log_emergency_visible_to_all
  gen_aid name age gender prob today now_hm s cu doctor :
  current_user s = Some cu ->
  let s' := snd (Routing.log_emergency gen_aid name age gender prob today now_hm s) in
  last (Routing.get_emergency_cases doctor (data s'))
  = Some (Routing.mkEmergencyCase gen_aid
            (match patients (data s) !! s_id cu with
             | Some p => pat_name p | None => name end)
            (match patients (data s) !! s_id cu with
             | Some p => pat_age p | None => age end)
            prob now_hm None)
  /\ store s' = data s'.
Proof.
  intros Hcu s'. subst s'. unfold Routing.log_emergency. rewrite Hcu.
  cbn [snd]. split; [| reflexivity].
  assert (Hv : Routing.visible_emergency doctor
                 (mkAppointment gen_aid (s_id cu) None today now_hm prob "Emergency")
               = true).
  { unfold Routing.visible_emergency, status_is. simpl. now rewrite orb_true_r. }
  rewrite get_emergency_cases_filter.
  cbn [data save_data set_data appointments set_appointments].
  rewrite List.filter_app, map_app. cbn [List.filter]. rewrite Hv. cbn [map].
  rewrite last_snoc. f_equal.
  unfold Routing.emergency_case, Routing.patient_name. simpl.
  destruct (patients (data s) !! s_id cu) as [p|] eqn:Hp.
  - now rewrite Hp.
  - now rewrite lookup_insert_eq.
Qed.

Lemma log_emergency_visible_to_all_witness :
  last (Routing.get_emergency_cases (Some "d3")
          (data (snd (Routing.log_emergency "e9" "Bob" "41" "M" "Fall" Clinic.today
                        "03:00" Clinic.pms_newcomer))))
  = Some (Routing.mkEmergencyCase "e9" "Bob" "41" "Fall" "03:00" None).
Proof.
  exact (proj1 (log_emergency_visible_to_all "e9" "Bob" "41" "M" "Fall"
                  Clinic.today "03:00" Clinic.pms_newcomer Clinic.as_newcomer
                  (Some "d3") eq_refl)).
Defined.

(** X7.  Logging an emergency leaves the patient's enquiry history as it
    was: the history lists only the appointments that are not emergencies. *)
Theorem log_emergency_not_in_enquiries
  gen_aid name age gender prob today now_hm s cu :
  current_user s = Some cu ->
  Routing.get_patient_enquiries
    (snd (Routing.log_emergency gen_aid name age gender prob today now_hm s))
  = Routing.get_patient_enquiries s.
Proof.
  intros Hcu.
  rewrite (get_patient_enquiries_filter s cu Hcu).
  rewrite (get_patient_enquiries_filter _ cu)
    by (unfold Routing.log_emergency; now rewrite Hcu).
  unfold Routing.log_emergency. rewrite Hcu. simpl.
  rewrite List.filter_app. simpl.
  replace (Routing.in_history (s_id cu)
             (mkAppointment gen_aid (s_id cu) None today now_hm prob "Emergency"))
    with false
    by (unfold Routing.in_history; simpl; now rewrite andb_false_r).
  now rewrite app_nil_r.
Qed.

Lemma log_emergency_not_in_enquiries_witness :
  Routing.get_patient_enquiries
    (snd (Routing.log_emergency "e9" "Alice" "30" "F" "Fall" Clinic.today "03:00"
            Clinic.pms))
  = Routing.get_patient_enquiries Clinic.pms.
Proof.
  exact (log_emergency_not_in_enquiries "e9" "Alice" "30" "F" "Fall" Clinic.today
           "03:00" Clinic.pms Clinic.as_patient eq_refl).
Defined.

(** ** What a booking changes in the views *)

(** X8.  On a consistent doctors dictionary, a booking made under a session
    with a non-empty id is the last entry of the patient's enquiry history,
    with the requested date, the assigned doctor's name, the problem and the
    status Approved. *)
Theorem booking_in_enquiries
  gen_pid gen_aid name age gender day tm prob s cu :
  current_user s = Some cu ->
  Py.truthy (s_id cu) = true ->
  doctors_consistent (data s) ->
  Routing.candidates (Routing.resolve_specialty prob) (data s) <> [] ->
  exists d old,
    In d (Routing.candidates (Routing.resolve_specialty prob) (data s))
    /\ Routing.get_patient_enquiries s = Returned old
    /\ Routing.get_patient_enquiries
         (snd (Routing.book_appointment gen_pid gen_aid name age gender day tm prob s))
       = Returned (old ++ [Routing.mkEnquiry day (doc_name d) prob "Approved"]).
Proof.
  intros Hcu Hid Hcons Hne.
  destruct (book_appointment_choice gen_pid gen_aid name age gender day tm prob
              s cu Hcu Hne) as (pre & d & post & Hsplit & _ & _ & Hrun).
  assert (Hd : In d (Routing.candidates (Routing.resolve_specialty prob) (data s)))
    by (rewrite Hsplit; apply in_elt).
  exists d. eexists. split; [exact Hd |].
  split; [apply (get_patient_enquiries_filter s cu Hcu) |].
  rewrite Hrun. cbn [snd].
  rewrite (get_patient_enquiries_filter _ cu) by exact Hcu.
  cbn [data save_data set_data appointments set_appointments].
  rewrite List.filter_app, map_app. f_equal. f_equal.
  rewrite Hid. cbn [List.filter].
  replace (Routing.in_history (s_id cu)
             (mkAppointment gen_aid (s_id cu) (Some (doc_id d)) day tm prob "Approved"))
    with true
    by (unfold Routing.in_history, opt_eqb; simpl;
        now rewrite bool_decide_eq_true_2).
  cbn [map]. f_equal. unfold Routing.enquiry, Routing.doctor_name_of. simpl.
  apply candidates_spec in Hd as [Hd _].
  now rewrite (doctors_consistent_get _ _ Hcons Hd).
Qed.

Lemma booking_in_enquiries_witness :
  exists d old,
    In d (Routing.candidates (Routing.resolve_specialty "Heart") (data Clinic.pms))
    /\ Routing.get_patient_enquiries Clinic.pms = Returned old
    /\ Routing.get_patient_enquiries
         (snd (Routing.book_appointment "px" "a3" "Alice" "30" "F" Clinic.today
                 "10:00" "Heart" Clinic.pms))
       = Returned (old ++ [Routing.mkEnquiry Clinic.today (doc_name d) "Heart"
                             "Approved"]).
Proof.
  apply (booking_in_enquiries "px" "a3" "Alice" "30" "F" Clinic.today "10:00"
           "Heart" Clinic.pms Clinic.as_patient).
  - reflexivity.
  - reflexivity.
  - exact clinic_doctors_consistent.
  - vm_compute. discriminate.
Defined.

(** X9.  After a booking whose date and time parse to an instant after
    [now], made under a session with a non-empty id, the upcoming-checkup view
    returns an entry, and that entry is after [now] and not later than the
    booked instant. *)
Theorem booking_gives_upcoming (strptime : string -> option Z)
  gen_pid gen_aid name age gender day tm prob s cu now t :
  current_user s = Some cu ->
  Py.truthy (s_id cu) = true ->
  Routing.candidates (Routing.resolve_specialty prob) (data s) <> [] ->
  strptime (day +:+ " " +:+ tm) = Some t ->
  (now < t)%Z ->
  exists u,
    Routing.get_upcoming_checkup strptime now
      (snd (Routing.book_appointment gen_pid gen_aid name age gender day tm prob s))
    = Returned (Some u)
    /\ (now < Routing.up_datetime u <= t)%Z.
Proof.
  intros Hcu Hid Hne Hparse Hlt.
  destruct (book_appointment_choice gen_pid gen_aid name age gender day tm prob
              s cu Hcu Hne) as (pre & d & post & _ & _ & _ & Hrun).
  rewrite Hrun. cbn [snd]. unfold Routing.get_upcoming_checkup.
  cbn [current_user save_data set_data data appointments set_appointments].
  rewrite Hcu, Hid.
  set (new := mkAppointment gen_aid (s_id cu) (Some (doc_id d)) day tm prob "Approved").
  set (d' := set_appointments (appointments (data s) ++ [new]) (data s)).
  pose proof (checkup_fold_spec strptime d' (s_id cu) now
                (appointments (data s) ++ [new])) as Hspec.
  assert (Hq : qualifies strptime (s_id cu) now (appointments (data s) ++ [new]) new t).
  { split; [apply in_app_iff; right; now left |]. split; [| split; assumption].
    unfold Routing.mine_approved, opt_eqb. simpl.
    now rewrite bool_decide_eq_true_2. }
  destruct (fold_left _ _ None) as [u|].
  - exists u. split; [reflexivity |].
    destruct Hspec as ((a & (_ & _ & _ & Hnow) & _) & Hmin).
    split; [exact Hnow | exact (Hmin new t Hq)].
  - exfalso. exact (Hspec new t Hq).
Qed.

Lemma booking_gives_upcoming_witness :
  exists u,
    Routing.get_upcoming_checkup Clinic.clock 555
      (snd (Routing.book_appointment "px" "a3" "Alice" "30" "F" Clinic.today "10:00"
              "Heart" Clinic.pms))
    = Returned (Some u)
    /\ (555 < Routing.up_datetime u <= 600)%Z.
Proof.
  apply (booking_gives_upcoming Clinic.clock "px" "a3" "Alice" "30" "F"
           Clinic.today "10:00" "Heart" Clinic.pms Clinic.as_patient 555 600).
  - reflexivity.
  - reflexivity.
  - vm_compute. discriminate.
  - reflexivity.
  - reflexivity.
Defined.

(** X10.  A booking at a slot time (after trimming) shows at once in the
    assigned doctor's grid for that date: the entry of the slot is Booked with
    the new appointment, whatever booking the slot showed before. *)
Theorem booking_shown_in_grid
  gen_pid gen_aid name age gender day tm prob s cu :
  current_user s = Some cu ->
  Routing.candidates (Routing.resolve_specialty prob) (data s) <> [] ->
  In (Py.strip tm) slot_times ->
  exists d pid,
    In d (Routing.candidates (Routing.resolve_specialty prob) (data s))
    /\ let s' := snd (Routing.book_appointment gen_pid gen_aid name age gender
                        day tm prob s) in
       In (Routing.mkSlot (Py.strip tm) "Booked"
             (Routing.patient_name (data s) pid) prob (Some gen_aid))
          (Routing.get_today_appointments (Some (doc_id d)) day (data s')).
Proof.
  intros Hcu Hne Hslot.
  destruct (book_appointment_choice gen_pid gen_aid name age gender day tm prob
              s cu Hcu Hne) as (pre & d & post & Hsplit & _ & _ & Hrun).
  exists d, (if Py.truthy (s_id cu) then s_id cu else Some gen_pid).
  split; [rewrite Hsplit; apply in_elt |].
  cbv zeta. rewrite Hrun. cbn [snd].
  rewrite today_grid_cells.
  cbn [data save_data set_data appointments set_appointments].
  apply in_map_iff. exists (Py.strip tm). split; [| exact Hslot].
  rewrite grid_cell_snoc.
  replace (booked_at (Some (doc_id d)) day (Py.strip tm) _) with true.
  2:{ unfold booked_at, Routing.on_schedule, opt_eqb. simpl.
      rewrite bool_decide_eq_true_2 by reflexivity.
      now rewrite !string_eqb_refl. }
  unfold Routing.booked_slot. rewrite grid_cell_time. reflexivity.
Qed.

Lemma booking_shown_in_grid_witness :
  exists d pid,
    In d (Routing.candidates (Routing.resolve_specialty "Heart")
            (data Clinic.pms_booked))
    /\ In (Routing.mkSlot (Py.strip " 10:00") "Booked"
             (Routing.patient_name (data Clinic.pms_booked) pid) "Heart" (Some "a4"))
          (Routing.get_today_appointments (Some (doc_id d)) Clinic.today
             (data (snd (Routing.book_appointment "px" "a4" "Alice" "30" "F"
                           Clinic.today " 10:00" "Heart" Clinic.pms_booked)))).
Proof.
  apply (booking_shown_in_grid "px" "a4" "Alice" "30" "F" Clinic.today " 10:00"
           "Heart" Clinic.pms_booked Clinic.as_patient).
  - reflexivity.
  - vm_compute. discriminate.
  - apply existsb_string_eqb. vm_compute. reflexivity.
Defined.

(** X11.  A booking raises by one the load the next bookings see for the
    assigned doctor on that date, and changes no other load: the count of any
    doctor on any date goes up by one exactly when the doctor has the assigned
    id and the date is the booked one. *)
Theorem booking_updates_load
  gen_pid gen_aid name age gender day tm prob s cu :
  current_user s = Some cu ->
  Routing.candidates (Routing.resolve_specialty prob) (data s) <> [] ->
  exists d,
    In d (Routing.candidates (Routing.resolve_specialty prob) (data s))
    /\ forall x day',
         Routing.same_day_count
           (data (snd (Routing.book_appointment gen_pid gen_aid name age gender
                         day tm prob s))) day' x
         = Routing.same_day_count (data s) day' x
           + (if bool_decide (doc_id x = doc_id d /\ day' = day) then 1 else 0).
Proof.
  intros Hcu Hne.
  destruct (book_appointment_choice gen_pid gen_aid name age gender day tm prob
              s cu Hcu Hne) as (pre & d & post & Hsplit & _ & _ & Hrun).
  exists d. split; [rewrite Hsplit; apply in_elt |].
  intros x day'. rewrite Hrun. cbn [snd]. unfold Routing.same_day_count.
  cbn [data save_data set_data appointments set_appointments].
  rewrite List.filter_app, length_app. f_equal.
  cbn [List.filter doctor_id date]. unfold opt_eqb, Py.string_eqb.
  destruct (bool_decide (doc_id x = doc_id d /\ day' = day)) eqn:E.
  - apply bool_decide_eq_true in E as [E1 E2].
    rewrite !bool_decide_eq_true_2 by congruence. reflexivity.
  - apply bool_decide_eq_false in E.
    destruct (bool_decide (Some (doc_id d) = Some (doc_id x))) eqn:E1;
      [| reflexivity].
    destruct (bool_decide (day = day')) eqn:E2; [| reflexivity].
    apply bool_decide_eq_true in E1, E2. exfalso. apply E.
    split; congruence.
Qed.

Lemma booking_updates_load_witness :
  exists d,
    In d (Routing.candidates (Routing.resolve_specialty "Heart") (data Clinic.pms))
    /\ forall x day',
         Routing.same_day_count
           (data (snd (Routing.book_appointment "px" "a3" "Alice" "30" "F"
                         Clinic.today "10:00" "Heart" Clinic.pms))) day' x
         = Routing.same_day_count (data Clinic.pms) day' x
           + (if bool_decide (doc_id x = doc_id d /\ day' = Clinic.today)
              then 1 else 0).
Proof.
  apply (booking_updates_load "px" "a3" "Alice" "30" "F" Clinic.today "10:00"
           "Heart" Clinic.pms Clinic.as_patient).
  - reflexivity.
  - vm_compute. discriminate.
Defined.

(** ** Referrals and reports, written then read *)

(** X12.  A referral that [create_referral] accepts arrives in the target
    doctor's incoming list as its last entry, with the patient's name, the
    name of the referring doctor (or "External Doctor" when the session id is
    no doctor key) and the notes; the incoming list of every other doctor is
    unchanged. *)
Theorem referral_arrives patient to_doc note today s cu p :
  current_user s = Some cu ->
  patients (data s) !! Some patient = Some p ->
  In to_doc (Dict.keys (doctors (data s))) ->
  let s' := snd (Routing.create_referral patient to_doc note today s) in
  Routing.get_incoming_referrals (Some to_doc) (data s')
  = Routing.get_incoming_referrals (Some to_doc) (data s)
    ++ [Routing.mkIncomingReferral today (pat_name p)
          (match s_id cu with
           | Some k => match Dict.get k (doctors (data s)) with
                       | Some x => doc_name x
                       | None => "External Doctor"
                       end
           | None => "External Doctor"
           end)
          note]
  /\ (forall other, other <> Some to_doc ->
        Routing.get_incoming_referrals other (data s')
        = Routing.get_incoming_referrals other (data s)).
Proof.
  intros Hcu Hp Hdoc s'. subst s'. unfold Routing.create_referral.
  rewrite Hp. apply dict_contains_keys in Hdoc. rewrite Hdoc, Hcu. cbn [negb snd].
  split.
  - rewrite !get_incoming_referrals_filter.
    cbn [data save_data set_data referrals set_referrals].
    rewrite List.filter_app, map_app. f_equal.
    cbn [List.filter to_doc_id]. unfold opt_eqb.
    rewrite bool_decide_eq_true_2 by reflexivity. cbn [map]. f_equal.
    unfold Routing.incoming_referral, Routing.patient_name. simpl. now rewrite Hp.
  - intros other Hother. rewrite !get_incoming_referrals_filter.
    cbn [data save_data set_data referrals set_referrals].
    rewrite List.filter_app, map_app.
    cbn [List.filter to_doc_id]. unfold opt_eqb.
    rewrite bool_decide_eq_false_2 by congruence. cbn [map].
    now rewrite app_nil_r.
Qed.

Lemma referral_arrives_witness :
  Routing.get_incoming_referrals (Some "d1")
    (data (snd (Routing.create_referral "p1" "d1" "second opinion" Clinic.today
                  Clinic.pms_doctor)))
  = [Routing.mkIncomingReferral Clinic.today "Alice" "Dr. B" "second opinion"].
Proof.
  refine (proj1 (referral_arrives "p1" "d1" "second opinion" Clinic.today
                   Clinic.pms_doctor Clinic.as_doctor Clinic.alice eq_refl _ _)).
  - vm_compute. reflexivity.
  - vm_compute. auto.
Defined.

(** X13.  A report that [upload_report] accepts is read back by
    [get_patient_reports] as the last entry of that patient, with the
    generated id, the date, the uploader's name when the session id is a
    doctor key ("Unknown Doctor" otherwise), the details (empty when none) and
    the file name when it is not empty; the reports of other patients are
    unchanged. *)
Theorem report_round_trip gen_id patient details file_name today s cu p :
  current_user s = Some cu ->
  patients (data s) !! Some patient = Some p ->
  let s' := snd (Routing.upload_report gen_id patient details file_name today s) in
  Routing.get_patient_reports (Some patient) (data s')
  = Routing.get_patient_reports (Some patient) (data s)
    ++ [Routing.mkReportEntry gen_id today
          (match s_id cu with
           | Some k => match Dict.get k (doctors (data s)) with
                       | Some x => doc_name x
                       | None => "Unknown Doctor"
                       end
           | None => "Unknown Doctor"
           end)
          (default EmptyString details)
          (if Py.truthy file_name then file_name else None)]
  /\ (forall other, other <> patient ->
        Routing.get_patient_reports (Some other) (data s')
        = Routing.get_patient_reports (Some other) (data s)).
Proof.
  intros Hcu Hp s'. subst s'. unfold Routing.upload_report.
  rewrite Hp, Hcu. cbn [snd]. split.
  - rewrite !get_patient_reports_map.
    cbn [data save_data set_data reports set_reports].
    rewrite lookup_insert_eq. cbn [from_option id]. rewrite map_app. f_equal.
    cbn [map]. f_equal. unfold Routing.report_entry. simpl. f_equal.
    destruct details as [x|]; [| reflexivity]. simpl.
    destruct (Py.string_eqb x EmptyString) eqn:E; simpl; [| reflexivity].
    apply string_eqb_true in E. now subst.
  - intros other Hother. rewrite !get_patient_reports_map.
    cbn [data save_data set_data reports set_reports].
    now rewrite lookup_insert_ne by congruence.
Qed.

Lemma report_round_trip_witness :
  Routing.get_patient_reports (Some "p1")
    (data (snd (Routing.upload_report "r1" "p1" (Some "ECG normal") None
                  Clinic.today Clinic.pms_doctor)))
  = [Routing.mkReportEntry "r1" Clinic.today "Dr. B" "ECG normal" None].
Proof.
  refine (proj1 (report_round_trip "r1" "p1" (Some "ECG normal") None Clinic.today
                   Clinic.pms_doctor Clinic.as_doctor Clinic.alice eq_refl _)).
  vm_compute. reflexivity.
Defined.

(** ** Accounts *)

(** X14.  [setup_initial_patient] is idempotent on the store: after a call the
    store has the user "test_patient", a second call returns [False] and
    changes nothing, and the in-memory document is never touched; when the
    first call created the account, the store has the Patient record under
    the same id and, after a reload, the login test_patient / patientpass
    succeeds. *)
Theorem setup_initial_patient_idempotent gen_id gen_id' s :
  let r := Routing.setup_initial_patient gen_id s in
  is_Some (users (store (snd r)) !! "test_patient")
  /\ data (snd r) = data s
  /\ Routing.setup_initial_patient gen_id' (snd r) = (false, snd r)
  /\ (fst r = true ->
      patients (store (snd r)) !! Some gen_id
      = Some (mkPatient (Some gen_id) "Test Patient" "35" "M")
      /\ fst (Routing.login "test_patient" "patientpass" (reload (snd r))) = true).
Proof.
  intros r.
  destruct (users (store s) !! "test_patient") as [u|] eqn:Hu.
  - assert (Hr : r = (false, s))
      by (subst r; unfold Routing.setup_initial_patient; now rewrite Hu).
    rewrite Hr. cbn [fst snd].
    split; [rewrite Hu; eauto |]. split; [reflexivity |]. split; [| discriminate].
    unfold Routing.setup_initial_patient. now rewrite Hu.
  - assert (Hr : r = (true,
        mkPMS (data s) (current_user s)
          (set_patients
             (<[Some gen_id := mkPatient (Some gen_id) "Test Patient" "35" "M"]>
                (patients (store s)))
             (set_users
                (<["test_patient" := mkUser "patientpass" "Patient" (Some gen_id)]>
                   (users (store s))) (store s)))))
      by (subst r; unfold Routing.setup_initial_patient; now rewrite Hu).
    rewrite Hr. cbn [fst snd store data set_users set_patients users patients].
    split; [rewrite lookup_insert_eq; eauto |]. split; [reflexivity |]. split.
    + unfold Routing.setup_initial_patient.
      cbn [store set_users set_patients users].
      now rewrite lookup_insert_eq.
    + intros _. split; [apply lookup_insert_eq |].
      unfold Routing.login, reload.
      cbn [store data set_users set_patients users].
      rewrite lookup_insert_eq. reflexivity.
Qed.

Lemma setup_initial_patient_idempotent_witness :
  fst (Routing.login "test_patient" "patientpass"
         (reload (snd (Routing.setup_initial_patient "p0" Clinic.pms)))) = true.
Proof.
  refine (proj2 (proj2 (proj2 (proj2 (setup_initial_patient_idempotent "p0" "p5"
                                        Clinic.pms))) _)).
  vm_compute. reflexivity.
Defined.

(** ** Uploaded file names *)

Lemma append_cons c a b : String c a +:+ b = String c (a +:+ b).
Proof. reflexivity. Qed.

Lemma has_dot_after_last_dot f :
  PyStr.has_dot f = false <-> PyStr.after_last_dot f = None.
Proof.
  induction f as [|c r IH]; simpl; [tauto |].
  destruct (PyStr.after_last_dot r) as [e|].
  - split; [| discriminate]. rewrite orb_false_iff. intros [_ H].
    apply IH in H. discriminate.
  - destruct (bool_decide (c = "."%char)); simpl; [split; discriminate |].
    split; [reflexivity | intros _; now apply IH].
Qed.

Lemma after_last_dot_app base ext :
  PyStr.has_dot ext = false ->
  PyStr.after_last_dot (base +:+ String "."%char ext) = Some ext.
Proof.
  intros Hext. apply has_dot_after_last_dot in Hext.
  induction base as [|c b IH].
  - change (EmptyString +:+ String "."%char ext) with (String "."%char ext).
    simpl. now rewrite Hext.
  - rewrite append_cons. simpl. now rewrite IH.
Qed.

Lemma has_dot_app base ext : PyStr.has_dot (base +:+ String "."%char ext) = true.
Proof.
  induction base as [|c b IH].
  - reflexivity.
  - rewrite append_cons. simpl. rewrite IH. apply orb_true_r.
Qed.

(** X18.  [allowed_file] never raises; a name without a dot is refused; a name
    with a dot is accepted exactly when what follows its last dot, lower-cased,
    is pdf, png, jpg or jpeg. *)
Theorem allowed_file_extension :
  (forall f, exists b, WebApp.allowed_file f = Returned b)
  /\ (forall f, PyStr.has_dot f = false -> WebApp.allowed_file f = Returned false)
  /\ (forall base ext,
        PyStr.has_dot ext = false ->
        exists b,
          WebApp.allowed_file (base +:+ String "."%char ext) = Returned b
          /\ (b = true <-> In (Py.lower ext) WebApp.ALLOWED_EXTENSIONS)).
Proof.
  split; [| split].
  - intros f. unfold WebApp.allowed_file, PyStr.rsplit_dot_1.
    destruct (PyStr.has_dot f) eqn:Hd; [| eauto].
    destruct (PyStr.after_last_dot f) eqn:Ha; [eauto |].
    apply has_dot_after_last_dot in Ha. congruence.
  - intros f Hf. unfold WebApp.allowed_file. now rewrite Hf.
  - intros base ext Hext. unfold WebApp.allowed_file, PyStr.rsplit_dot_1.
    rewrite has_dot_app, (after_last_dot_app _ _ Hext).
    eexists. split; [reflexivity |]. apply existsb_string_eqb.
Qed.

Lemma allowed_file_extension_witness :
  exists b,
    WebApp.allowed_file ("scan.backup" +:+ String "."%char "PDF") = Returned b
    /\ (b = true <-> In (Py.lower "PDF") WebApp.ALLOWED_EXTENSIONS).
Proof.
  apply (proj2 (proj2 allowed_file_extension) "scan.backup" "PDF").
  reflexivity.
Defined.

(** ** Visits per day *)

Lemma dict_get_set_ne {V} k k' (v : V) d :
  k <> k' -> Dict.get k' (Dict.set k v d) = Dict.get k' d.
Proof.
  intros Hne. induction d as [|[k0 v0] r IH]; simpl.
  - destruct (Py.string_eqb k' k) eqn:E; [| reflexivity].
    apply string_eqb_true in E. congruence.
  - destruct (Py.string_eqb k k0) eqn:E; simpl.
    + apply string_eqb_true in E. subst k0.
      destruct (Py.string_eqb k' k) eqn:E'; [| reflexivity].
      apply string_eqb_true in E'. congruence.
    + now rewrite IH.
Qed.

Lemma string_eqb_sym a b : Py.string_eqb a b = Py.string_eqb b a.
Proof. unfold Py.string_eqb. apply bool_decide_ext. split; congruence. Qed.

Lemma bump_get k k' c :
  default 0 (Dict.get k' (bump k c))
  = default 0 (Dict.get k' c) + (if Py.string_eqb k' k then 1 else 0).
Proof.
  unfold bump. destruct (Py.string_eqb k' k) eqn:E.
  - apply string_eqb_true in E. subst k'. now rewrite dict_get_set_eq.
  - apply string_eqb_false in E. rewrite dict_get_set_ne by congruence. simpl. lia.
Qed.

Lemma dict_set_sum k v (c : Dict.t nat) :
  list_sum (Dict.values (Dict.set k v c)) + default 0 (Dict.get k c)
  = list_sum (Dict.values c) + v.
Proof.
  induction c as [|[k0 v0] r IH]; simpl; [lia |].
  destruct (Py.string_eqb k k0); simpl; lia.
Qed.

Lemma bump_sum k c :
  list_sum (Dict.values (bump k c)) = S (list_sum (Dict.values c)).
Proof.
  unfold bump.
  pose proof (dict_set_sum k (default 0 (Dict.get k c) + 1) c). lia.
Qed.

Lemma bump_keys_in k k' c :
  In k' (Dict.keys (bump k c)) <-> In k' (Dict.keys c) \/ k' = k.
Proof.
  unfold bump.
  destruct (decide (k ∈ Dict.keys c)) as [Hin|Hout]; rewrite list_elem_of_In in *.
  - rewrite dict_set_keys_present by exact Hin. split; [now left |].
    intros [H| ->]; assumption.
  - rewrite dict_set_fresh by exact Hout. unfold Dict.keys.
    rewrite map_app, in_app_iff. simpl. intuition congruence.
Qed.

Lemma bump_keys_NoDup k c : NoDup (Dict.keys c) -> NoDup (Dict.keys (bump k c)).
Proof.
  intros Hnd. unfold bump.
  destruct (decide (k ∈ Dict.keys c)) as [Hin|Hout]; rewrite list_elem_of_In in *.
  - now rewrite dict_set_keys_present.
  - rewrite dict_set_fresh by exact Hout. unfold Dict.keys in *.
    rewrite map_app. simpl. apply NoDup_app. split; [exact Hnd |]. split.
    + intros x Hx Hk. apply list_elem_of_In in Hk. destruct Hk as [<-|[]].
      apply Hout. now apply list_elem_of_In.
    + apply NoDup_singleton.
Qed.

Section CountByDate.
Variable approved : Appointment -> bool.

Local Abbreviation count_step :=
  (fun counts a => if approved a then bump (date a) counts else counts).

Lemma count_fold_get l acc k :
  default 0 (Dict.get k (fold_left count_step l acc))
  = default 0 (Dict.get k acc)
    + length (List.filter (fun a => approved a && Py.string_eqb (date a) k) l).
Proof.
  revert acc. induction l as [|a l IH]; intros acc; simpl; [lia |].
  rewrite IH. destruct (approved a); simpl; [| lia].
  rewrite bump_get, (string_eqb_sym k (date a)).
  destruct (Py.string_eqb (date a) k); simpl; lia.
Qed.

Lemma count_fold_keys l acc k :
  In k (Dict.keys (fold_left count_step l acc))
  <-> In k (Dict.keys acc) \/ exists a, In a l /\ approved a = true /\ date a = k.
Proof.
  revert acc. induction l as [|a l IH]; intros acc; simpl.
  - split; [now left | intros [H|(a & [] & _)]; exact H].
  - rewrite IH. destruct (approved a) eqn:Ha.
    + rewrite bump_keys_in. split.
      * intros [[H| ->]|(b & Hb & Hpb)]; [now left | right; exists a; auto |].
        right. exists b. tauto.
      * intros [H|(b & [<-|Hb] & Hpb & Hd)]; [now left; left | left; right; congruence |].
        right. exists b. auto.
    + split.
      * intros [H|(b & Hb & Hpb)]; [now left | right; exists b; tauto].
      * intros [H|(b & [<-|Hb] & Hpb & Hd)]; [now left | congruence |].
        right. exists b. auto.
Qed.

Lemma count_fold_NoDup l acc :
  NoDup (Dict.keys acc) -> NoDup (Dict.keys (fold_left count_step l acc)).
Proof.
  revert acc. induction l as [|a l IH]; intros acc Hnd; simpl; [exact Hnd |].
  apply IH. destruct (approved a); [now apply bump_keys_NoDup | exact Hnd].
Qed.

Lemma count_fold_sum l acc :
  list_sum (Dict.values (fold_left count_step l acc))
  = list_sum (Dict.values acc) + length (List.filter approved l).
Proof.
  revert acc. induction l as [|a l IH]; intros acc; simpl; [lia |].
  rewrite IH. destruct (approved a); simpl; [rewrite bump_sum |]; lia.
Qed.
End CountByDate.

Lemma values_by_lookup (c : Dict.t nat) :
  NoDup (Dict.keys c) -> counts_at c (Dict.keys c) = Dict.values c.
Proof.
  unfold counts_at. induction c as [|[k v] r IH]; simpl; [reflexivity |].
  intros Hnd. apply NoDup_cons in Hnd as [Hnotin Hnd].
  rewrite string_eqb_refl. simpl. f_equal. rewrite <- IH by exact Hnd.
  apply map_ext_in. intros k' Hk'.
  destruct (Py.string_eqb k' k) eqn:E; [| reflexivity].
  apply string_eqb_true in E. subst k'. exfalso. apply Hnotin.
  now apply list_elem_of_In.
Qed.

Lemma list_sum_perm l l' : Permutation l l' -> list_sum l = list_sum l'.
Proof. induction 1; simpl; lia. Qed.

(** *** [sorted] *)

Lemma leb_trans a b c :
  String.leb a b = true -> String.leb b c = true -> String.leb a c = true.
Proof.
  intros H1 H2. apply Is_true_true.
  change (String.le a c). transitivity b; apply Is_true_true; assumption.
Qed.

Lemma insert_sorted_perm x l : Permutation (PyStr.insert_sorted x l) (x :: l).
Proof.
  induction l as [|y r IH]; simpl; [reflexivity |].
  destruct (String.leb x y); [reflexivity |].
  rewrite IH. apply perm_swap.
Qed.

Lemma sorted_perm l : Permutation (PyStr.sorted l) l.
Proof.
  induction l as [|x r IH]; simpl; [reflexivity |].
  rewrite insert_sorted_perm. now rewrite IH.
Qed.

Lemma insert_sorted_sorted x l :
  StronglySorted (fun a b => String.leb a b = true) l ->
  StronglySorted (fun a b => String.leb a b = true) (PyStr.insert_sorted x l).
Proof.
  induction 1 as [|y r Hs IH Hall]; simpl.
  - repeat constructor.
  - destruct (String.leb x y) eqn:E.
    + constructor; [now constructor |]. constructor; [exact E |].
      rewrite List.Forall_forall in *. intros z Hz.
      exact (leb_trans _ _ _ E (Hall z Hz)).
    + constructor; [exact IH |].
      rewrite List.Forall_forall in *. intros z Hz.
      apply (Permutation_in _ (insert_sorted_perm x r)) in Hz as [<-|Hz];
        [| now apply Hall].
      destruct (String.leb_total x y) as [H|H]; congruence.
Qed.

Lemma sorted_sorted l :
  StronglySorted (fun a b => String.leb a b = true) (PyStr.sorted l).
Proof.
  induction l as [|x r IH]; simpl; [constructor | now apply insert_sorted_sorted].
Qed.

Lemma leb_ltb a b : String.leb a b = true -> a <> b -> String.ltb a b = true.
Proof.
  unfold String.leb, String.ltb. intros H Hne.
  destruct (String.compare a b) eqn:E; [| reflexivity | discriminate].
  apply String.compare_eq_iff in E. contradiction.
Qed.

Lemma sorted_strictly l :
  NoDup l -> StronglySorted (fun a b => String.ltb a b = true) (PyStr.sorted l).
Proof.
  intros Hnd.
  assert (Hnd' : NoDup (PyStr.sorted l)).
  { now rewrite sorted_perm. }
  pose proof (sorted_sorted l) as Hs. clear Hnd.
  induction Hs as [|x r Hs IH Hall]; [constructor |].
  apply NoDup_cons in Hnd' as [Hnotin Hnd'].
  constructor; [now apply IH |].
  rewrite List.Forall_forall in *. intros z Hz.
  apply leb_ltb; [now apply Hall |].
  intros ->. apply Hnotin. now apply list_elem_of_In.
Qed.

(** X19.  [api_patient_counts] reloads the document and answers the dates
    that carry an appointment of status Approved, each once and in strictly
    ascending order, with, for each date, the number of Approved appointments
    on it; the counts add up to the number of Approved appointments. *)
Theorem api_patient_counts_spec s :
  let r := WebApp.api_patient_counts s in
  let dates := fst (fst r) in
  let counts := snd (fst r) in
  let appts := appointments (store s) in
  snd r = reload s
  /\ StronglySorted (fun a b => String.ltb a b = true) dates
  /\ (forall d, In d dates <->
        exists a, In a appts /\ status a = "Approved" /\ date a = d)
  /\ counts
     = map (fun d => length (List.filter
                               (fun a => is_approved a && Py.string_eqb (date a) d)
                               appts)) dates
  /\ list_sum counts = length (List.filter is_approved appts).
Proof.
  intros r dates counts appts. subst r dates counts appts.
  unfold WebApp.api_patient_counts. cbn [fst snd reload data store].
  set (P := fun a => Py.string_eqb (status a) "Approved").
  set (c := count_by_date P (appointments (store s))).
  assert (Hnd : NoDup (Dict.keys c))
    by (apply count_fold_NoDup; constructor).
  split; [reflexivity |]. split; [now apply sorted_strictly |]. split; [| split].
  - intros d. rewrite (Permutation_in' eq_refl (sorted_perm (Dict.keys c))).
    unfold c, count_by_date. rewrite count_fold_keys. simpl. split.
    + intros [[]|(a & Ha & HP & Hd)]. exists a. split; [exact Ha |].
      split; [now apply string_eqb_true | exact Hd].
    + intros (a & Ha & Hst & Hd). right. exists a. split; [exact Ha |].
      split; [now apply string_eqb_true | exact Hd].
  - unfold counts_at. apply map_ext. intros d.
    unfold c, count_by_date. now rewrite count_fold_get.
  - rewrite (list_sum_perm _ (counts_at c (Dict.keys c))).
    + rewrite values_by_lookup by exact Hnd.
      unfold c, count_by_date. now rewrite count_fold_sum.
    + unfold counts_at. apply Permutation_map, sorted_perm.
Qed.

Lemma api_patient_counts_spec_witness :
  In Clinic.today (fst (fst (WebApp.api_patient_counts Clinic.pms_booked))).
Proof.
  apply (proj1 (proj2 (proj2 (api_patient_counts_spec Clinic.pms_booked)))).
  exists Clinic.appt1. vm_compute. auto.
Defined.

Lemma parse_all_none strptime_date dates :
  Routing.parse_all strptime_date dates = None
  <-> exists d, In d dates /\ strptime_date d = None.
Proof.
  induction dates as [|d r IH]; simpl.
  - split; [discriminate | intros (d & [] & _)].
  - destruct (strptime_date d) as [z|] eqn:Hd.
    + destruct (Routing.parse_all strptime_date r) as [zs|].
      * split; [discriminate |]. intros (x & [<-|Hx] & Hn); [congruence |].
        assert (H : @None (list Z) = None) by reflexivity.
        destruct IH as [_ IH]. discriminate IH. eauto.
      * split; [| reflexivity]. intros _.
        destruct IH as [IH _]. destruct (IH eq_refl) as (x & Hx & Hn). eauto.
    + split; [| reflexivity]. intros _. exists d. auto.
Qed.

Lemma parse_all_length strptime_date dates zs :
  Routing.parse_all strptime_date dates = Some zs -> length zs = length dates.
Proof.
  revert zs. induction dates as [|d r IH]; simpl; intros zs.
  - intros [= <-]. reflexivity.
  - destruct (strptime_date d); [| discriminate].
    destruct (Routing.parse_all strptime_date r) as [zs'|]; [| discriminate].
    intros [= <-]. simpl. f_equal. now apply IH.
Qed.

(** X20.  [plot_daily_patients] answers "no data" exactly when no appointment
    is approved, raises [ValueError] exactly when the date of some approved
    appointment does not parse, and otherwise hands the plotting library one
    parsed date per count, the counts adding up to the number of approved
    appointments.  [strptime_date] is any parser of the date. *)
Theorem plot_daily_patients_spec (strptime_date : string -> option Z) d :
  let r := Routing.plot_daily_patients strptime_date d in
  let approved := status_is "approved" in
  (r = Returned Routing.NoData <->
     forall a, In a (appointments d) -> approved a = false)
  /\ (r = Raised "ValueError" <->
        exists a, In a (appointments d) /\ approved a = true
                  /\ strptime_date (date a) = None)
  /\ (forall dts cs, r = Returned (Routing.Chart dts cs) ->
        length dts = length cs
        /\ list_sum cs = length (List.filter approved (appointments d))).
Proof.
  intros r approved. subst r. unfold Routing.plot_daily_patients.
  set (c := count_by_date (status_is "approved") (appointments d)).
  assert (Hkeys : forall k, In k (Dict.keys c) <->
            exists a, In a (appointments d) /\ approved a = true /\ date a = k).
  { intros k. unfold c, count_by_date. rewrite count_fold_keys. simpl.
    split; [intros [[]|H]; exact H | intros H; now right]. }
  assert (Hnd : NoDup (Dict.keys c)) by (apply count_fold_NoDup; constructor).
  assert (Hsum : list_sum (counts_at c (PyStr.sorted (Dict.keys c)))
                 = length (List.filter approved (appointments d))).
  { rewrite (list_sum_perm _ (counts_at c (Dict.keys c))).
    - rewrite values_by_lookup by exact Hnd.
      unfold c, count_by_date. now rewrite count_fold_sum.
    - unfold counts_at. apply Permutation_map, sorted_perm. }
  assert (Hparse : Routing.parse_all strptime_date (PyStr.sorted (Dict.keys c)) = None
            <-> exists a, In a (appointments d) /\ approved a = true
                          /\ strptime_date (date a) = None).
  { rewrite parse_all_none. split.
    - intros (k & Hk & Hn).
      apply (Permutation_in _ (sorted_perm _)) in Hk.
      apply Hkeys in Hk as (a & Ha & Hp & <-). eauto.
    - intros (a & Ha & Hp & Hn). exists (date a). split; [| exact Hn].
      apply (Permutation_in _ (Permutation_sym (sorted_perm _))).
      apply Hkeys. eauto. }
  destruct c as [|[k v] c'] eqn:Hc.
  - split; [| split].
    + split; [| reflexivity]. intros _ a Ha.
      destruct (approved a) eqn:Hp; [| reflexivity].
      exfalso. apply (proj2 (Hkeys (date a))). eauto.
    + split; [discriminate |]. intros (a & Ha & Hp & _).
      exfalso. apply (proj2 (Hkeys (date a))). eauto.
    + discriminate.
  - rewrite <- Hc in *. clearbody c.
    assert (Hsome : exists a, In a (appointments d) /\ approved a = true).
    { destruct (proj1 (Hkeys k)) as (a & Ha & Hp & _); [subst c; now left | eauto]. }
    destruct (Routing.parse_all strptime_date (PyStr.sorted (Dict.keys c)))
      as [zs|] eqn:Hz.
    + split; [| split].
      * split; [discriminate |]. intros Hall.
        destruct Hsome as (a & Ha & Hp). rewrite (Hall a Ha) in Hp. discriminate.
      * split; [discriminate |]. intros H. apply Hparse in H. discriminate.
      * intros dts cs [= <- <-]. split; [| exact Hsum].
        rewrite (parse_all_length _ _ _ Hz). unfold counts_at.
        now rewrite length_map.
    + split; [| split].
      * split; [discriminate |]. intros Hall.
        destruct Hsome as (a & Ha & Hp). rewrite (Hall a Ha) in Hp. discriminate.
      * split; [intros _; now apply Hparse | reflexivity].
      * discriminate.
Qed.

Lemma plot_daily_patients_spec_witness :
  Routing.plot_daily_patients Clinic.clock_day Clinic.doc
  = Returned (Routing.Chart [20098%Z] [2])
  /\ length [20098%Z] = length [2]
  /\ list_sum [2] = length (List.filter (status_is "approved")
                              (appointments Clinic.doc)).
Proof.
  assert (H : Routing.plot_daily_patients Clinic.clock_day Clinic.doc
              = Returned (Routing.Chart [20098%Z] [2])) by (vm_compute; reflexivity).
  split; [exact H |].
  exact (proj2 (proj2 (plot_daily_patients_spec Clinic.clock_day Clinic.doc))
           [20098%Z] [2] H).
Defined.

(** ** The lineage variant: no slot is booked twice *)

Lemma existsb_clashes_false assigned day tm l :
  existsb (Lineage.clashes assigned day tm) l = false ->
  ~ In (Some assigned, day, tm) (map slot_key (List.filter is_approved l)).
Proof.
  intros Hc Hin. apply in_map_iff in Hin as (a & Hk & Ha).
  apply filter_In in Ha as (Ha & Hap).
  unfold slot_key in Hk. injection Hk as H1 H2 H3.
  apply string_eqb_true in Hap.
  assert (existsb (Lineage.clashes assigned day tm) l = true); [| congruence].
  apply existsb_clashes. exists a. auto.
Qed.

Lemma no_double_booking_snoc l a :
  no_double_booking l ->
  (is_approved a = true ->
   ~ In (slot_key a) (map slot_key (List.filter is_approved l))) ->
  no_double_booking (l ++ [a]).
Proof.
  unfold no_double_booking. intros Hnd Hnew.
  rewrite List.filter_app, map_app. simpl.
  destruct (is_approved a) eqn:Ha; simpl; [| now rewrite app_nil_r].
  apply NoDup_app. split; [exact Hnd |]. split; [| apply NoDup_singleton].
  intros x Hx Hk. apply list_elem_of_In in Hk. destruct Hk as [<-|[]].
  apply list_elem_of_In in Hx. now apply Hnew.
Qed.

Lemma lineage_book_keeps_sound gen_aid name age gender day tm prob s :
  no_double_booking (appointments (data s)) ->
  approved_in_slots (appointments (data s)) ->
  let s1 := snd (Lineage.book_appointment gen_aid name age gender day tm prob s) in
  no_double_booking (appointments (data s1))
  /\ approved_in_slots (appointments (data s1)).
Proof.
  intros Hnd Hslots s1. subst s1.
  unfold Lineage.book_appointment.
  destruct (current_user s) as [cu|]; [| now split].
  destruct (existsb (Py.string_eqb tm) Lineage.allowed_times) eqn:Htm; cbn [negb].
  2:{ cbn [snd set_data data]. rewrite ensure_patient_appointments. now split. }
  cbn [data set_data]. rewrite ensure_patient_doctors.
  destruct (Dict.keys (doctors (data s))) as [|assigned rest].
  { cbn [snd set_data data]. rewrite ensure_patient_appointments. now split. }
  rewrite ensure_patient_appointments.
  destruct (existsb (Lineage.clashes assigned day tm) (appointments (data s)))
    eqn:Hclash.
  { cbn [snd set_data data]. rewrite ensure_patient_appointments. now split. }
  cbn [snd save_data set_data data appointments set_appointments]. split.
  - apply no_double_booking_snoc; [exact Hnd |]. intros _.
    now apply existsb_clashes_false.
  - intros a Ha Hst. apply in_app_iff in Ha as [Ha|[<-|[]]].
    + now apply Hslots.
    + now apply existsb_string_eqb.
Qed.

Lemma lineage_emergency_keeps_sound gen_aid name age gender prob today now_hm s :
  no_double_booking (appointments (data s)) ->
  approved_in_slots (appointments (data s)) ->
  let s2 := snd (Lineage.log_emergency gen_aid name age gender prob today now_hm s) in
  no_double_booking (appointments (data s2))
  /\ approved_in_slots (appointments (data s2)).
Proof.
  intros Hnd Hslots s2. subst s2.
  unfold Lineage.log_emergency.
  destruct (current_user s) as [cu|]; [| now split].
  cbn [snd save_data set_data data appointments set_appointments].
  rewrite ensure_patient_appointments. split.
  - apply no_double_booking_snoc; [exact Hnd |]. discriminate.
  - intros a Ha Hst. apply in_app_iff in Ha as [Ha|[<-|[]]].
    + now apply Hslots.
    + discriminate.
Qed.

(** X21.  The lineage operations that append appointments keep the schedule
    sound: if no two Approved appointments share doctor, date and time and
    every Approved appointment is at an allowed time, the same holds after
    [book_appointment], whatever it answers, and after [log_emergency]. *)
Theorem lineage_keeps_schedule_sound
  gen_aid name age gender day tm prob today now_hm s :
  no_double_booking (appointments (data s)) ->
  approved_in_slots (appointments (data s)) ->
  let s1 := snd (Lineage.book_appointment gen_aid name age gender day tm prob s) in
  let s2 := snd (Lineage.log_emergency gen_aid name age gender prob today now_hm s) in
  (no_double_booking (appointments (data s1))
   /\ approved_in_slots (appointments (data s1)))
  /\ (no_double_booking (appointments (data s2))
      /\ approved_in_slots (appointments (data s2))).
Proof.
  intros Hnd Hslots. split.
  - now apply lineage_book_keeps_sound.
  - now apply lineage_emergency_keeps_sound.
Qed.

Lemma nil_schedule_sound :
  no_double_booking [] /\ approved_in_slots [].
Proof. split; [constructor | intros a []]. Qed.

Lemma clinic_schedule_sound :
  no_double_booking (appointments (data Clinic.pms))
  /\ approved_in_slots (appointments (data Clinic.pms)).
Proof.
  split.
  - apply (bool_decide_unpack _). vm_compute. exact I.
  - intros a Ha _. apply existsb_string_eqb.
    simpl in Ha. destruct Ha as [<-|[<-|[]]]; vm_compute; reflexivity.
Qed.

Lemma lineage_keeps_schedule_sound_witness :
  no_double_booking
    (appointments
       (data (snd (Lineage.book_appointment "a9" "Alice" "30" "F" Clinic.today
                     "09:00" "Heart" Clinic.pms))))
  /\ approved_in_slots
       (appointments
          (data (snd (Lineage.book_appointment "a9" "Alice" "30" "F" Clinic.today
                        "09:00" "Heart" Clinic.pms)))).
Proof.
  exact (proj1 (lineage_keeps_schedule_sound "a9" "Alice" "30" "F" Clinic.today
                  "09:00" "Heart" Clinic.today "03:00" Clinic.pms
                  (proj1 clinic_schedule_sound) (proj2 clinic_schedule_sound))).
Defined.

Lemma NoDup_map_filter {A B} (f : A -> B) (p : A -> bool) l :
  NoDup (map f l) -> NoDup (map f (List.filter p l)).
Proof.
  induction l as [|a l IH]; simpl; [auto |]. intros Hnd.
  apply NoDup_cons in Hnd as [Hnotin Hnd].
  destruct (p a); simpl; [| now apply IH].
  apply NoDup_cons. split; [| now apply IH].
  intros Hin. apply Hnotin. apply list_elem_of_In in Hin.
  apply in_map_iff in Hin as (x & Hx & Hin). apply filter_In in Hin as [Hin _].
  apply list_elem_of_In. apply in_map_iff. eauto.
Qed.

Lemma approved_times_NoDup doctor day l :
  no_double_booking l ->
  NoDup (map time
           (List.filter
              (fun a => is_approved a && opt_eqb (doctor_id a) doctor
                        && Py.string_eqb (date a) day) l)).
Proof.
  intros Hnd.
  assert (Hf : List.filter
                 (fun a => is_approved a && opt_eqb (doctor_id a) doctor
                           && Py.string_eqb (date a) day) l
               = List.filter
                   (fun a => opt_eqb (doctor_id a) doctor && Py.string_eqb (date a) day)
                   (List.filter is_approved l)).
  { clear Hnd. induction l as [|a l IH]; simpl; [reflexivity |].
    destruct (is_approved a); simpl; [| exact IH].
    destruct (opt_eqb (doctor_id a) doctor && Py.string_eqb (date a) day);
      simpl; now rewrite IH. }
  rewrite Hf. clear Hf.
  apply (NoDup_map_filter slot_key
           (fun a => opt_eqb (doctor_id a) doctor && Py.string_eqb (date a) day))
    in Hnd.
  set (l' := List.filter _ (List.filter is_approved l)) in *.
  assert (Hkey : forall a, In a l' -> slot_key a = (doctor, day, time a)).
  { intros a Ha. apply filter_In in Ha as (_ & Hb).
    apply andb_true_iff in Hb as (H1 & H2).
    apply opt_eqb_true in H1. apply string_eqb_true in H2.
    unfold slot_key. now rewrite H1, H2. }
  clearbody l'. induction l' as [|a r IH]; simpl in *; [constructor |].
  apply NoDup_cons in Hnd as [Hnotin Hnd].
  apply NoDup_cons. split.
  - intros Hin. apply Hnotin. apply list_elem_of_In in Hin.
    apply in_map_iff in Hin as (x & Hx & Hin).
    apply list_elem_of_In. apply in_map_iff. exists x. split; [| exact Hin].
    rewrite (Hkey x) by (now right). rewrite (Hkey a) by (now left).
    now rewrite Hx.
  - apply IH; [exact Hnd |]. intros x Hx. apply Hkey. now right.
Qed.

Lemma booked_on_times_NoDup k day l :
  no_double_booking l -> NoDup (map time (booked_on k day l)).
Proof. apply approved_times_NoDup. Qed.

Lemma sound_day_capacity k day l :
  no_double_booking l -> approved_in_slots l ->
  length (booked_on k day l) <= 42.
Proof.
  intros Hnd Hslots.
  rewrite <- (length_map time), <- slot_times_length.
  apply NoDup_incl_length.
  - apply NoDup_ListNoDup. now apply booked_on_times_NoDup.
  - intros t Ht. apply in_map_iff in Ht as (a & <- & Ha).
    unfold booked_on in Ha. apply filter_In in Ha as (Ha & Hb).
    apply andb_true_iff in Hb as (Hb & _). apply andb_true_iff in Hb as (Hb & _).
    apply string_eqb_true in Hb. exact (Hslots a Ha Hb).
Qed.

(** X22.  On a sound schedule, whatever a lineage booking answers, no doctor
    ends up with more than 42 Approved appointments on any one date: one per
    allowed time at most. *)
Theorem lineage_day_capacity gen_aid name age gender day tm prob s k day' :
  no_double_booking (appointments (data s)) ->
  approved_in_slots (appointments (data s)) ->
  length (booked_on k day'
            (appointments
               (data (snd (Lineage.book_appointment gen_aid name age gender day tm
                             prob s))))) <= 42.
Proof.
  intros Hnd Hslots.
  destruct (lineage_book_keeps_sound gen_aid name age gender day tm prob s Hnd Hslots)
    as [Hnd' Hslots'].
  now apply sound_day_capacity.
Qed.

Lemma lineage_day_capacity_witness :
  length (booked_on "d1" Clinic.today
            (appointments
               (data (snd (Lineage.book_appointment "a9" "Alice" "30" "F"
                             Clinic.today "09:00" "Heart" Clinic.pms))))) <= 42.
Proof.
  exact (lineage_day_capacity "a9" "Alice" "30" "F" Clinic.today "09:00" "Heart"
           Clinic.pms "d1" Clinic.today
           (proj1 clinic_schedule_sound) (proj2 clinic_schedule_sound)).
Defined.

(** X23.  When every allowed time of a date carries an Approved appointment
    of the first doctor of the collection, every lineage booking for that date
    fails, whatever the time, and appends nothing. *)
Theorem lineage_full_day_rejects
  gen_aid name age gender day tm prob s cu assigned rest :
  current_user s = Some cu ->
  Dict.keys (doctors (data s)) = assigned :: rest ->
  (forall t, In t Lineage.allowed_times ->
     exists a, In a (appointments (data s))
               /\ doctor_id a = Some assigned /\ date a = day /\ time a = t
               /\ status a = "Approved") ->
  let r := Lineage.book_appointment gen_aid name age gender day tm prob s in
  lineage_failed (fst r) = true
  /\ appointments (data (snd r)) = appointments (data s).
Proof.
  intros Hcu Hkeys Hfull r. subst r. unfold Lineage.book_appointment. rewrite Hcu.
  destruct (existsb (Py.string_eqb tm) Lineage.allowed_times) eqn:Htm; cbn [negb].
  - cbn [data set_data]. rewrite ensure_patient_doctors, Hkeys.
    rewrite ensure_patient_appointments.
    apply existsb_string_eqb in Htm. apply Hfull in Htm.
    apply existsb_clashes in Htm. rewrite Htm.
    cbn [fst snd data set_data]. now rewrite ensure_patient_appointments.
  - cbn [fst snd data set_data]. now rewrite ensure_patient_appointments.
Qed.

Lemma get_today_list_filter doctor today d :
  Lineage.get_today_appointments doctor today d
  = map (Lineage.today_entry d)
      (List.filter (Lineage.on_list doctor today) (appointments d)).
Proof. unfold Lineage.get_today_appointments. now rewrite fold_append_filter. Qed.

Lemma today_entry_time d a : Lineage.t_time (Lineage.today_entry d a) = time a.
Proof. unfold Lineage.today_entry. now destruct (patients d !! patient_id a). Qed.

(** X24.  A lineage booking that passes the checks goes to the first doctor of
    the collection, whatever the problem, and is at once the last entry of
    that doctor's list for the booked date, under the name, age and gender of
    the patient's existing record, or the supplied ones when the record was
    missing. *)
Theorem lineage_booking_in_today_list
  gen_aid name age gender day tm prob s cu assigned rest :
  current_user s = Some cu ->
  In tm Lineage.allowed_times ->
  Dict.keys (doctors (data s)) = assigned :: rest ->
  existsb (Lineage.clashes assigned day tm) (appointments (data s)) = false ->
  let s' := snd (Lineage.book_appointment gen_aid name age gender day tm prob s) in
  last (appointments (data s'))
  = Some (mkAppointment gen_aid (s_id cu) (Some assigned) day tm prob "Approved")
  /\ last (Lineage.get_today_appointments (Some assigned) day (data s'))
     = Some (match patients (data s) !! s_id cu with
             | Some p => Lineage.mkTodayEntry gen_aid (pat_name p) (pat_age p)
                           (pat_gender p) prob tm
             | None => Lineage.mkTodayEntry gen_aid name age gender prob tm
             end)
  /\ store s' = data s'.
Proof.
  intros Hcu Htm Hkeys Hclash s'. subst s'.
  unfold Lineage.book_appointment. rewrite Hcu.
  apply existsb_string_eqb in Htm. rewrite Htm. cbn [negb data set_data].
  rewrite ensure_patient_doctors, Hkeys, ensure_patient_appointments, Hclash.
  cbn [snd save_data set_data data store appointments set_appointments].
  split; [apply last_snoc |]. split; [| reflexivity].
  rewrite get_today_list_filter.
  cbn [appointments set_appointments].
  rewrite List.filter_app, map_app. cbn [List.filter].
  replace (Lineage.on_list (Some assigned) day _) with true.
  2:{ unfold Lineage.on_list, opt_eqb. simpl.
      rewrite bool_decide_eq_true_2 by reflexivity.
      now rewrite !string_eqb_refl. }
  cbn [map]. rewrite last_snoc. f_equal.
  unfold Lineage.today_entry, Lineage.ensure_patient. simpl.
  destruct (patients (data s) !! s_id cu) as [p|] eqn:Hp; simpl.
  - now rewrite Hp.
  - now rewrite lookup_insert_eq.
Qed.

Lemma lineage_booking_in_today_list_witness :
  last (Lineage.get_today_appointments (Some "d1") Clinic.today
          (data (snd (Lineage.book_appointment "a9" "Bob" "41" "M" Clinic.today
                        "09:00" "Skin" Clinic.pms_newcomer))))
  = Some (Lineage.mkTodayEntry "a9" "Bob" "41" "M" "Skin" "09:00").
Proof.
  refine (proj1 (proj2 (lineage_booking_in_today_list "a9" "Bob" "41" "M"
                          Clinic.today "09:00" "Skin" Clinic.pms_newcomer
                          Clinic.as_newcomer "d1" ["d2"; "d3"] eq_refl _ eq_refl _))).
  - apply existsb_string_eqb. vm_compute. reflexivity.
  - vm_compute. reflexivity.
Defined.

(** X25.  On a schedule without double booking, the list of a doctor's
    appointments for a day never shows two entries at the same time. *)
Theorem lineage_today_list_distinct_times doctor today d :
  no_double_booking (appointments d) ->
  NoDup (map Lineage.t_time (Lineage.get_today_appointments doctor today d)).
Proof.
  intros Hnd. rewrite get_today_list_filter, map_map.
  rewrite (map_ext _ time) by (intros; apply today_entry_time).
  rewrite (filter_ext (Lineage.on_list doctor today)
             (fun a => is_approved a && opt_eqb (doctor_id a) doctor
                       && Py.string_eqb (date a) today)).
  - now apply approved_times_NoDup.
  - intros a. unfold Lineage.on_list, is_approved.
    destruct (opt_eqb (doctor_id a) doctor), (Py.string_eqb (date a) today),
      (Py.string_eqb (status a) "Approved"); reflexivity.
Qed.

Lemma lineage_today_list_distinct_times_witness :
  NoDup (map Lineage.t_time
           (Lineage.get_today_appointments (Some "d2") Clinic.today Clinic.doc)).
Proof.
  exact (lineage_today_list_distinct_times (Some "d2") Clinic.today Clinic.doc
           (proj1 clinic_schedule_sound)).
Defined.

Lemma lineage_full_day_rejects_witness :
  lineage_failed
    (fst (Lineage.book_appointment "a9" "Alice" "30" "F" Clinic.today "11:30"
            "Heart" Clinic.pms_full)) = true
  /\ appointments
       (data (snd (Lineage.book_appointment "a9" "Alice" "30" "F" Clinic.today
                     "11:30" "Heart" Clinic.pms_full)))
     = appointments (data Clinic.pms_full).
Proof.
  apply (lineage_full_day_rejects "a9" "Alice" "30" "F" Clinic.today "11:30"
           "Heart" Clinic.pms_full Clinic.as_patient "d1" ["d2"; "d3"]).
  - reflexivity.
  - reflexivity.
  - intros t Ht.
    exists (mkAppointment ("f" +:+ t) (Some "p1") (Some "d1") Clinic.today t "Heart"
              "Approved").
    split; [| repeat split].
    change (appointments (data Clinic.pms_full)) with Clinic.full_day.
    unfold Clinic.full_day. apply in_map_iff. eexists. split; [reflexivity |].
    exact Ht.
Defined.

(** ** Derived usernames *)

Lemma username_char_plain c : plain_char (username_char c) = true.
Proof. destruct c as [[] [] [] [] [] [] [] []]; vm_compute; reflexivity. Qed.

Lemma username_char_fixed c : plain_char c = true -> username_char c = c.
Proof. destruct c as [[] [] [] [] [] [] [] []]; vm_compute; congruence. Qed.

Lemma doctor_username_cons c r :
  Routing.doctor_username (String c r)
  = String (username_char c) (Routing.doctor_username r).
Proof. reflexivity. Qed.

(** * The load-balancing choice and the text-normalising operations, in full *)

(** The definitions of [Routing] and [WebApp] that normalise text are the
    instances of those of [Uni] at the ASCII built-ins. *)
Lemma ascii_instances :
  Routing.get_today_appointments = Uni.get_today_appointments Py.strip Py.lower
  /\ Routing.add_doctor = Uni.add_doctor Py.lower
  /\ WebApp.signup = Uni.signup Py.strip Py.lower
  /\ WebApp.login = Uni.login Py.strip.
Proof. repeat split. Qed.

(** The lookup table of [book_appointment], case by case. *)
Lemma resolve_specialty_cases prob :
  Routing.resolve_specialty prob
  = if bool_decide (prob = "Heart") then "Cardiology"
    else if bool_decide (prob = "Skin") then "Dermatologist"
    else if bool_decide (prob = "Diabetes") then "Endocrinologist"
    else if bool_decide (prob = "Bone") then "Orthopedic"
    else "General Physician".
Proof.
  repeat case_bool_decide; subst; try reflexivity.
  unfold Routing.resolve_specialty, Routing.problem_to_specialty.
  cbn [Dict.get]. unfold Py.string_eqb.
  repeat (case_bool_decide; [try congruence; try reflexivity |]).
  reflexivity.
Qed.

(** C1.  The specialty of a booking is Cardiology for the problem Heart,
    Dermatologist for Skin, Endocrinologist for Diabetes, Orthopedic for Bone
    and General Physician for every other problem.  When that specialty has
    candidates (the doctors of that specialty, in the insertion order of the
    doctors collection), [book_appointment] books the candidate [d] with the
    fewest appointments whose doctor id is the candidate's and whose date is
    the requested one, whatever their status: every candidate before [d] has
    strictly more of them, every candidate after it has at least as many.
    The appointment appended is Approved, with [d], at the requested date and
    time. *)
Theorem book_assigns_least_loaded
  gen_pid gen_aid name age gender day tm prob s cu :
  current_user s = Some cu ->
  let specialty :=
    if bool_decide (prob = "Heart") then "Cardiology"
    else if bool_decide (prob = "Skin") then "Dermatologist"
    else if bool_decide (prob = "Diabetes") then "Endocrinologist"
    else if bool_decide (prob = "Bone") then "Orthopedic"
    else "General Physician" in
  let candidates :=
    List.filter (fun x => bool_decide (doc_specialty x = specialty))
                (map snd (doctors (data s))) in
  let load := fun x : Doctor =>
    length (List.filter
              (fun a => bool_decide (doctor_id a = Some (doc_id x))
                        && bool_decide (date a = day))
              (appointments (data s))) in
  candidates <> [] ->
  exists pre d post,
    candidates = pre ++ d :: post
    /\ (forall x, In x pre -> load d < load x)
    /\ (forall x, In x post -> load d <= load x)
    /\ fst (Routing.book_appointment gen_pid gen_aid name age gender day tm prob s)
       = Returned (Routing.Booked (doc_name d) (doc_specialty d))
    /\ exists pid,
         appointments
           (data (snd (Routing.book_appointment gen_pid gen_aid name age gender
                         day tm prob s)))
         = appointments (data s)
           ++ [mkAppointment gen_aid pid (Some (doc_id d)) day tm prob "Approved"].
Proof.
  intros Hcu specialty candidates load Hne.
  subst candidates specialty. rewrite <- resolve_specialty_cases in *.
  destruct (book_appointment_choice gen_pid gen_aid name age gender day tm prob
              s cu Hcu Hne) as (pre & d & post & Hsplit & Hpre & Hpost & Hrun).
  exists pre, d, post. rewrite Hrun.
  split; [exact Hsplit |]. split; [exact Hpre |]. split; [exact Hpost |].
  split; [reflexivity |]. eexists. reflexivity.
Qed.

(** Dr. A, first in the collection, has two appointments on the day and
    Dr. B none: the booking goes to Dr. B. *)
Lemma book_assigns_least_loaded_witness :
  fst (Routing.book_appointment "px" "a3" "Alice" "30" "F" Clinic.today "10:00"
         "Heart" Clinic.pms_a_busy)
  = Returned (Routing.Booked "Dr. B" "Cardiology").
Proof.
  assert (Hne : List.filter
                  (fun x => bool_decide (doc_specialty x = "Cardiology"))
                  (map snd (doctors (data Clinic.pms_a_busy))) <> [])
    by (vm_compute; discriminate).
  destruct (book_assigns_least_loaded "px" "a3" "Alice" "30" "F" Clinic.today
              "10:00" "Heart" Clinic.pms_a_busy Clinic.as_patient eq_refl Hne)
    as (pre & d & post & Hsplit & Hpre & Hpost & Hres & _).
  rewrite Hres. clear Hres Hne.
  change (List.filter _ (map snd (doctors (data Clinic.pms_a_busy))))
    with [Clinic.dr_a; Clinic.dr_b] in Hsplit.
  destruct pre as [|p0 [|p1 pre]]; cbn [app] in Hsplit.
  - injection Hsplit as <- <-. specialize (Hpost Clinic.dr_b (or_introl eq_refl)).
    vm_compute in Hpost. lia.
  - injection Hsplit as _ <- _. reflexivity.
  - injection Hsplit as _ _ H. destruct pre; discriminate.
Defined.

(** ** The slot grid, for any [str.strip] and [str.lower] *)
Section GridCells.
Variables (d : Document) (sel : Appointment -> bool) (key : Appointment -> string).

Local Abbreviation shown_at := (fun t a => sel a && Py.string_eqb (key a) t).

Lemma cell_of_time l t : Routing.slot_time (cell_of d shown_at l t) = t.
Proof. unfold cell_of. now destruct (last _). Qed.

Lemma cell_of_snoc l a t :
  cell_of d shown_at (l ++ [a]) t
  = if shown_at t a then Routing.booked_slot d a (cell_of d shown_at l t)
    else cell_of d shown_at l t.
Proof.
  unfold cell_of. rewrite List.filter_app. cbn [List.filter].
  destruct (sel a && Py.string_eqb (key a) t).
  - rewrite last_snoc. symmetry. apply booked_slot_overwrites.
    now destruct (last _).
  - now rewrite app_nil_r.
Qed.

Lemma cells_fold ts l l0 :
  NoDup ts ->
  fold_left
    (fun schedule a =>
       if sel a then Routing.book_slot (key a) (Routing.booked_slot d a) schedule
       else schedule)
    l (map (cell_of d shown_at l0) ts)
  = map (cell_of d shown_at (l0 ++ l)) ts.
Proof.
  intros Hnd. revert l0. induction l as [|a l IH]; intros l0; simpl.
  - now rewrite app_nil_r.
  - replace (if sel a
             then Routing.book_slot (key a) (Routing.booked_slot d a)
                    (map (cell_of d shown_at l0) ts)
             else map (cell_of d shown_at l0) ts)
      with (map (cell_of d shown_at (l0 ++ [a])) ts).
    + rewrite IH. now rewrite <- app_assoc.
    + destruct (sel a) eqn:Hsel.
      * rewrite book_slot_map by (auto using cell_of_time).
        apply map_ext. intros t. rewrite cell_of_snoc, Hsel. simpl.
        rewrite (string_eqb_sym t (key a)).
        now destruct (Py.string_eqb (key a) t).
      * apply map_ext. intros t. rewrite cell_of_snoc, Hsel. reflexivity.
Qed.
End GridCells.

(** C10, as the code has it.  Whatever [str.strip] and [str.lower] are, the
    grid has one entry per slot time, 42 in the fixed ascending order.  The
    entry of slot [t] shows the LAST appointment of the list whose doctor id
    is the queried one, whose date is today, whose status, trimmed and
    lower-cased, is "approved", and whose time, trimmed, is [t]: it is then
    Booked with the patient's name (Unknown without a record), the problem
    and the appointment id; it is Available when there is no such
    appointment.  So a Booked entry always comes from such an appointment,
    and an appointment whose trimmed time is no slot time shows nowhere. *)
Theorem today_grid_shows_last (str_strip str_lower : string -> string)
  doctor today d :
  let shown := fun (t : string) (a : Appointment) =>
    bool_decide (doctor_id a = doctor) && bool_decide (date a = today)
    && bool_decide (str_lower (str_strip (status a)) = "approved")
    && bool_decide (str_strip (time a) = t) in
  let booked := fun (t : string) (a : Appointment) =>
    Routing.mkSlot t "Booked"
      (match patients d !! patient_id a with
       | Some p => pat_name p
       | None => "Unknown"
       end)
      (problem a) (Some (appt_id a)) in
  let grid := Uni.get_today_appointments str_strip str_lower doctor today d in
  grid = map (fun t => match last (List.filter (shown t) (appointments d)) with
                       | Some a => booked t a
                       | None => Routing.mkSlot t "Available" "-" "-" None
                       end) slot_times
  /\ length grid = 42
  /\ map Routing.slot_time grid
     = [ "09:00"; "09:10"; "09:20"; "09:30"; "09:40"; "09:50";
         "10:00"; "10:10"; "10:20"; "10:30"; "10:40"; "10:50";
         "11:00"; "11:10"; "11:20"; "11:30"; "11:40"; "11:50";
         "14:00"; "14:10"; "14:20"; "14:30"; "14:40"; "14:50";
         "15:00"; "15:10"; "15:20"; "15:30"; "15:40"; "15:50";
         "16:00"; "16:10"; "16:20"; "16:30"; "16:40"; "16:50";
         "17:00"; "17:10"; "17:20"; "17:30"; "17:40"; "17:50" ]
  /\ (forall slot, In slot grid -> Routing.slot_status slot = "Booked" ->
        exists a, In a (appointments d)
                  /\ shown (Routing.slot_time slot) a = true
                  /\ In (str_strip (time a)) slot_times
                  /\ slot = booked (str_strip (time a)) a).
Proof.
  intros shown booked grid.
  assert (Hgrid : grid = map (cell_of d shown (appointments d)) slot_times).
  { subst grid. unfold Uni.get_today_appointments.
    change (map Routing.available slot_times)
      with (map (cell_of d shown []) slot_times).
    exact (cells_fold d (Uni.on_schedule str_strip str_lower doctor today)
             (fun a => str_strip (time a)) slot_times (appointments d) []
             slot_times_NoDup). }
  split; [exact Hgrid |]. split; [| split].
  - rewrite Hgrid, length_map. reflexivity.
  - rewrite Hgrid, map_map.
    rewrite (map_ext _ (fun t => t))
      by (intros t; unfold cell_of; now destruct (last _)).
    rewrite map_id. reflexivity.
  - intros slot Hin Hbooked. rewrite Hgrid in Hin.
    apply in_map_iff in Hin as (t & <- & Ht).
    unfold cell_of in *.
    destruct (last (List.filter (shown t) (appointments d))) as [a|] eqn:E;
      [| discriminate].
    apply last_Some in E as (l' & E).
    assert (Ha : In a (List.filter (shown t) (appointments d))).
    { rewrite E. apply in_app_iff. right. now left. }
    apply filter_In in Ha as (Ha & Hb).
    assert (Hk : str_strip (time a) = t).
    { unfold shown in Hb. apply andb_true_iff in Hb as (_ & Hb).
      now apply bool_decide_eq_true in Hb. }
    exists a. cbn [Routing.slot_time Routing.booked_slot Routing.available].
    rewrite Hk. auto.
Qed.

Lemma today_grid_shows_last_witness :
  exists a,
    In a (appointments Clinic.clash_doc)
    /\ bool_decide (doctor_id a = Some "d2") && bool_decide (date a = Clinic.today)
       && bool_decide (Py.lower (Py.strip (status a)) = "approved")
       && bool_decide (Py.strip (time a) = "09:00") = true
    /\ In (Py.strip (time a)) slot_times
    /\ Routing.mkSlot "09:00" "Booked" "Unknown" "Fever" (Some "c2")
       = Routing.mkSlot (Py.strip (time a)) "Booked"
           (match patients Clinic.clash_doc !! patient_id a with
            | Some p => pat_name p
            | None => "Unknown"
            end)
           (problem a) (Some (appt_id a)).
Proof.
  apply (proj2 (proj2 (proj2 (today_grid_shows_last Py.strip Py.lower (Some "d2")
                                Clinic.today Clinic.clash_doc)))
           (Routing.mkSlot "09:00" "Booked" "Unknown" "Fever" (Some "c2"))).
  - vm_compute. now left.
  - reflexivity.
Defined.

(** ** Doctor accounts, for any [str.lower] *)

(** X1.  Whatever [str.lower] is: a doctor account that [add_doctor] creates
    can be used at once.  The username is the lower-cased name with every
    space replaced by an underscore; the doctors collection holds the record
    under the generated id, the document is saved, and [login] with that
    username and the given password succeeds with a Doctor session carrying
    the id. *)
Theorem add_doctor_then_login (str_lower : string -> string)
  gen_id name specialty pw s :
  let username := Py.replace_space (str_lower name) in
  users (data s) !! username = None ->
  let r := Uni.add_doctor str_lower gen_id name specialty pw s in
  fst r = Routing.DoctorCreated name username gen_id
  /\ Dict.get gen_id (doctors (data (snd r))) = Some (mkDoctor gen_id name specialty)
  /\ store (snd r) = data (snd r)
  /\ Routing.login username pw (snd r)
     = (true,
        mkPMS (data (snd r)) (Some (mkSession username "Doctor" (Some gen_id)))
          (store (snd r))).
Proof.
  intros username Hfree r. subst r username.
  unfold Uni.add_doctor, Uni.doctor_username. rewrite Hfree. simpl.
  split; [reflexivity |]. split; [apply dict_get_set_eq |]. split; [reflexivity |].
  unfold Routing.login. simpl. rewrite lookup_insert_eq. simpl.
  now rewrite string_eqb_refl.
Qed.

Lemma add_doctor_then_login_witness :
  fst (Routing.login "jane_doe" "s3cret"
         (snd (Uni.add_doctor Py.lower "d7" "Jane Doe" "Orthopedic" "s3cret"
                 Clinic.pms)))
  = true.
Proof.
  pose proof (add_doctor_then_login Py.lower "d7" "Jane Doe" "Orthopedic" "s3cret"
                Clinic.pms eq_refl) as H.
  cbv zeta in H. destruct H as (_ & _ & _ & H).
  change (Py.replace_space (Py.lower "Jane Doe")) with "jane_doe" in H.
  now rewrite H.
Defined.

(** X2.  Whatever [str.lower] is: after a doctor was added, adding any doctor
    whose lower-cased name, spaces replaced by underscores, is the same string
    is rejected with [UsernameTaken] and changes nothing. *)
Theorem add_doctor_rejects_same_username (str_lower : string -> string)
  gen1 name1 sp1 pw1 gen2 name2 sp2 pw2 s :
  users (data s) !! Py.replace_space (str_lower name1) = None ->
  Py.replace_space (str_lower name2) = Py.replace_space (str_lower name1) ->
  let s1 := snd (Uni.add_doctor str_lower gen1 name1 sp1 pw1 s) in
  Uni.add_doctor str_lower gen2 name2 sp2 pw2 s1 = (Routing.UsernameTaken, s1).
Proof.
  intros Hfree Hsame s1.
  assert (Hu : users (data s1) !! Py.replace_space (str_lower name2)
               = Some (mkUser pw1 "Doctor" (Some gen1))).
  { subst s1. unfold Uni.add_doctor, Uni.doctor_username. rewrite Hfree. simpl.
    rewrite Hsame. apply lookup_insert_eq. }
  unfold Uni.add_doctor, Uni.doctor_username. now rewrite Hu.
Qed.

Lemma add_doctor_rejects_same_username_witness :
  Uni.add_doctor Py.lower "d8" "JANE_DOE" "Cardiology" "other"
    (snd (Uni.add_doctor Py.lower "d7" "Jane Doe" "Orthopedic" "s3cret" Clinic.pms))
  = (Routing.UsernameTaken,
     snd (Uni.add_doctor Py.lower "d7" "Jane Doe" "Orthopedic" "s3cret" Clinic.pms)).
Proof.
  apply (add_doctor_rejects_same_username Py.lower "d7" "Jane Doe" "Orthopedic"
           "s3cret" "d8" "JANE_DOE" "Cardiology" "other" Clinic.pms); reflexivity.
Defined.

(** X4.  Whatever [str.lower] is: a doctor that [add_doctor] accepts under a
    fresh id comes last in the insertion order.  For every specialty the
    doctors of that specialty, in the order of the collection, are the former
    ones followed by the new doctor when the specialty is theirs; so on equal
    load every doctor added earlier is preferred by a booking. *)
Theorem add_doctor_candidate_last (str_lower : string -> string)
  gen_id name specialty pw s sp :
  users (data s) !! Py.replace_space (str_lower name) = None ->
  ~ In gen_id (map fst (doctors (data s))) ->
  let s' := snd (Uni.add_doctor str_lower gen_id name specialty pw s) in
  List.filter (fun x => bool_decide (doc_specialty x = sp)) (map snd (doctors (data s')))
  = List.filter (fun x => bool_decide (doc_specialty x = sp))
      (map snd (doctors (data s)))
    ++ (if bool_decide (specialty = sp) then [mkDoctor gen_id name specialty] else [])
  /\ Routing.candidates sp (data s')
     = List.filter (fun x => bool_decide (doc_specialty x = sp))
         (map snd (doctors (data s'))).
Proof.
  intros Hfree Hfresh s'. subst s'.
  unfold Uni.add_doctor, Uni.doctor_username. rewrite Hfree.
  cbn [snd save_data set_data data set_users set_doctors doctors].
  split; [| reflexivity].
  rewrite dict_set_fresh by exact Hfresh.
  rewrite map_app, List.filter_app. reflexivity.
Qed.

Lemma add_doctor_candidate_last_witness :
  List.filter (fun x => bool_decide (doc_specialty x = "Cardiology"))
    (map snd (doctors (data (snd (Uni.add_doctor Py.lower "d7" "Jane Doe"
                                    "Cardiology" "s3cret" Clinic.pms)))))
  = [Clinic.dr_a; Clinic.dr_b; mkDoctor "d7" "Jane Doe" "Cardiology"].
Proof.
  rewrite (proj1 (add_doctor_candidate_last Py.lower "d7" "Jane Doe" "Cardiology"
                    "s3cret" Clinic.pms "Cardiology" eq_refl
                    ltac:(vm_compute; intuition discriminate))).
  reflexivity.
Defined.

(** ** Signup, for any [str.strip] and [str.lower] *)

(** X15.  Whatever [str.strip] and [str.lower] are: after a signup, a second
    signup whose username, trimmed and lower-cased, is the same string is
    rejected with [UsernameExists] and changes nothing. *)
Theorem signup_rejects_duplicate (str_strip str_lower : string -> string)
  gen1 u1 p1 n1 a1 g1 gen2 u2 p2 n2 a2 g2 s :
  users (store s) !! str_lower (str_strip u1) = None ->
  str_lower (str_strip u2) = str_lower (str_strip u1) ->
  let s1 := snd (Uni.signup str_strip str_lower gen1 u1 p1 n1 a1 g1 s) in
  Uni.signup str_strip str_lower gen2 u2 p2 n2 a2 g2 s1 = (WebApp.UsernameExists, s1).
Proof.
  intros Hfree Hsame s1.
  assert (Hu : is_Some (users (store s1) !! str_lower (str_strip u2))).
  { subst s1. unfold Uni.signup, Uni.signup_username. rewrite Hfree.
    cbn [snd store set_users set_patients users].
    rewrite Hsame, lookup_insert_eq. eauto. }
  destruct Hu as [x Hx]. unfold Uni.signup, Uni.signup_username. now rewrite Hx.
Qed.

Lemma signup_rejects_duplicate_witness :
  Uni.signup Py.strip Py.lower "p8" "  CAROL " "other" "C" "20" "F"
    (snd (Uni.signup Py.strip Py.lower "p7" "Carol" "secret" "Carol K" "52" "F"
            Clinic.pms))
  = (WebApp.UsernameExists,
     snd (Uni.signup Py.strip Py.lower "p7" "Carol" "secret" "Carol K" "52" "F"
            Clinic.pms)).
Proof.
  apply (signup_rejects_duplicate Py.strip Py.lower "p7" "Carol" "secret" "Carol K"
           "52" "F" "p8" "  CAROL " "other" "C" "20" "F" Clinic.pms); reflexivity.
Defined.

(** X16.  Whatever [str.strip] and [str.lower] are: usernames are unique
    across roles.  Once [add_doctor] created a doctor, a patient signup whose
    username, trimmed and lower-cased, is the doctor's username (the
    lower-cased name with underscores for spaces) is rejected and changes
    nothing. *)
Theorem signup_rejects_doctor_username (str_strip str_lower : string -> string)
  gen_d name specialty pw gen_p u p n a g s :
  users (data s) !! Py.replace_space (str_lower name) = None ->
  str_lower (str_strip u) = Py.replace_space (str_lower name) ->
  let s1 := snd (Uni.add_doctor str_lower gen_d name specialty pw s) in
  Uni.signup str_strip str_lower gen_p u p n a g s1 = (WebApp.UsernameExists, s1).
Proof.
  intros Hfree Hsame s1.
  assert (Hu : is_Some (users (store s1) !! str_lower (str_strip u))).
  { subst s1. unfold Uni.add_doctor, Uni.doctor_username. rewrite Hfree.
    cbn [snd store save_data set_data data set_users set_doctors users].
    rewrite Hsame, lookup_insert_eq. eauto. }
  destruct Hu as [x Hx]. unfold Uni.signup, Uni.signup_username. now rewrite Hx.
Qed.

Lemma signup_rejects_doctor_username_witness :
  Uni.signup Py.strip Py.lower "p8" "Jane_Doe" "pw" "Jane" "33" "F"
    (snd (Uni.add_doctor Py.lower "d7" "Jane Doe" "Orthopedic" "s3cret" Clinic.pms))
  = (WebApp.UsernameExists,
     snd (Uni.add_doctor Py.lower "d7" "Jane Doe" "Orthopedic" "s3cret" Clinic.pms)).
Proof.
  apply (signup_rejects_doctor_username Py.strip Py.lower "d7" "Jane Doe"
           "Orthopedic" "s3cret" "p8" "Jane_Doe" "pw" "Jane" "33" "F" Clinic.pms);
    reflexivity.
Defined.

(** X17.  Whatever [str.strip] and [str.lower] are: the core saves its
    in-memory document, which the signup route does not refresh.  A signup
    stores the account in the store under the trimmed, lower-cased username
    with the trimmed password; when [add_doctor] then runs on the state the
    signup left and the in-memory document had no such user, the store it
    writes no longer has the account; with a reload in between, the account is
    kept. *)
Theorem signup_needs_reload_before_core_save (str_strip str_lower : string -> string)
  gen_p u p n a g gen_d name specialty pw s :
  let su := str_lower (str_strip u) in
  let du := Py.replace_space (str_lower name) in
  users (store s) !! su = None ->
  users (data s) !! su = None ->
  users (data s) !! du = None ->
  su <> du ->
  let s1 := snd (Uni.signup str_strip str_lower gen_p u p n a g s) in
  users (store s1) !! su = Some (mkUser (str_strip p) "Patient" (Some gen_p))
  /\ users (store (snd (Uni.add_doctor str_lower gen_d name specialty pw s1))) !! su
     = None
  /\ (users (store s) !! du = None ->
      users (store (snd (Uni.add_doctor str_lower gen_d name specialty pw (reload s1))))
        !! su
      = Some (mkUser (str_strip p) "Patient" (Some gen_p))).
Proof.
  intros su du Hstore Hdata Hdoc Hne s1. subst s1 su du.
  unfold Uni.signup, Uni.signup_username. rewrite Hstore. cbn [snd].
  split; [| split].
  - cbn [store set_users set_patients users]. apply lookup_insert_eq.
  - unfold Uni.add_doctor, Uni.doctor_username. cbn [data]. rewrite Hdoc.
    cbn [snd store save_data set_data data set_users set_doctors users].
    now rewrite lookup_insert_ne by congruence.
  - intros Hdoc'. unfold Uni.add_doctor, Uni.doctor_username, reload.
    cbn [data store set_users set_patients users].
    rewrite lookup_insert_ne by exact Hne. rewrite Hdoc'.
    cbn [snd store save_data set_data data set_users set_doctors set_patients users].
    rewrite lookup_insert_ne by congruence. apply lookup_insert_eq.
Qed.

Lemma signup_needs_reload_before_core_save_witness :
  users (store (snd (Uni.add_doctor Py.lower "d7" "Jane Doe" "Orthopedic" "s3cret"
                       (snd (Uni.signup Py.strip Py.lower "p7" "Carol" "secret"
                               "Carol K" "52" "F" Clinic.pms)))))
    !! "carol" = None.
Proof.
  refine (proj1 (proj2 (signup_needs_reload_before_core_save Py.strip Py.lower
                          "p7" "Carol" "secret" "Carol K" "52" "F" "d7" "Jane Doe"
                          "Orthopedic" "s3cret" Clinic.pms _ _ _ _)));
    vm_compute; (reflexivity || discriminate).
Defined.

(** ** What the operations keep of the in-memory document *)

(** X5.  On the in-memory document, no operation of [src/pms_core.py] removes
    or changes an appointment, a referral, a user, a patient or a report:
    appointments and referrals grow by at most one record at the end, every
    user and patient record stays as it is, every report list only gets
    longer.  A doctor record stays as it is unless the operation is an
    [add_doctor] whose generated id is that doctor's key, which replaces the
    record.  The store is either left as it is or overwritten with the
    resulting in-memory document; nothing is said of records that are only in
    the store. *)
Theorem core_keeps_document_records op s :
  let s' := snd (Core.run op s) in
  (exists l, appointments (data s') = appointments (data s) ++ l /\ length l <= 1)
  /\ (exists l, referrals (data s') = referrals (data s) ++ l /\ length l <= 1)
  /\ (forall u x, users (data s) !! u = Some x -> users (data s') !! u = Some x)
  /\ (forall p x, patients (data s) !! p = Some x -> patients (data s') !! p = Some x)
  /\ (forall p l, reports (data s) !! p = Some l ->
        exists l', reports (data s') !! p = Some (l ++ l'))
  /\ (forall k v, Dict.get k (doctors (data s)) = Some v ->
        Dict.get k (doctors (data s')) = Some v
        \/ exists name sp pw,
             op = Core.AddDoctor k name sp pw
             /\ Dict.get k (doctors (data s')) = Some (mkDoctor k name sp))
  /\ (store s' = store s \/ store s' = data s').
Proof.
  intros s'. subst s'.
  pose (P := fun (o : Core.Op) (d d' : Document) =>
    (exists l, appointments d' = appointments d ++ l /\ length l <= 1)
    /\ (exists l, referrals d' = referrals d ++ l /\ length l <= 1)
    /\ (forall u x, users d !! u = Some x -> users d' !! u = Some x)
    /\ (forall p x, patients d !! p = Some x -> patients d' !! p = Some x)
    /\ (forall p l, reports d !! p = Some l ->
          exists l', reports d' !! p = Some (l ++ l'))
    /\ (forall k v, Dict.get k (doctors d) = Some v ->
          Dict.get k (doctors d') = Some v
          \/ exists name sp pw,
               o = Core.AddDoctor k name sp pw
               /\ Dict.get k (doctors d') = Some (mkDoctor k name sp))).
  assert (Hstore : store (snd (Core.run op s)) = store s
                   \/ store (snd (Core.run op s)) = data (snd (Core.run op s))).
  { destruct (run_store op s) as [H|(_ & _ & H)]; [now left | now right]. }
  enough (HP : P op (data s) (data (snd (Core.run op s)))).
  { unfold P in HP. destruct HP as (H1 & H2 & H3 & H4 & H5 & H6).
    repeat (split; [assumption |]). exact Hstore. }
  clear Hstore.
  assert (Hsame : forall o d, P o d d).
  { intros o d.
    split; [exists []; rewrite app_nil_r; simpl; auto |].
    split; [exists []; rewrite app_nil_r; simpl; auto |].
    split; [auto |]. split; [auto |]. split; [| auto].
    intros q l H. exists []. now rewrite app_nil_r. }
  destruct op; simpl.
  - unfold Routing.login.
    destruct (users (data s) !! username) as [u|]; [| apply Hsame].
    destruct (Py.string_eqb (password u) pw); apply Hsame.
  - unfold Routing.add_doctor.
    destruct (users (data s) !! Routing.doctor_username name) eqn:Hu; [apply Hsame |].
    unfold P. simpl.
    split; [exists []; rewrite app_nil_r; simpl; auto |].
    split; [exists []; rewrite app_nil_r; simpl; auto |].
    split.
    { intros u x Hx. rewrite lookup_insert_ne; [exact Hx | congruence]. }
    split; [auto |]. split.
    { intros q l H. exists []. now rewrite app_nil_r. }
    intros k v Hk. destruct (decide (gen_id = k)) as [->|Hne].
    + right. exists name, specialty, pw. split; [reflexivity |].
      apply dict_get_set_eq.
    + left. now rewrite dict_get_set_ne.
  - unfold Routing.book_appointment.
    destruct (current_user s); [| apply Hsame].
    destruct (Routing.candidates _ _) as [|c cs]; [apply Hsame |].
    destruct (sort_by_key _ _) as [|d t]; [apply Hsame |]. unfold P. simpl.
    split; [eexists; split; [reflexivity | simpl; lia] |].
    split; [exists []; rewrite app_nil_r; simpl; auto |].
    split; [auto |]. split; [auto |]. split; [| auto].
    intros q l H. exists []. now rewrite app_nil_r.
  - unfold Routing.log_emergency.
    destruct (current_user s) as [cu|]; [| apply Hsame]. unfold P. simpl.
    split; [eexists; split; [reflexivity | simpl; lia] |].
    split; [exists []; rewrite app_nil_r; simpl; auto |].
    split; [auto |]. split.
    { intros q x Hx. destruct (patients (data s) !! s_id cu) eqn:Hp; [exact Hx |].
      rewrite lookup_insert_ne; [exact Hx | congruence]. }
    split; [| auto].
    intros q l H. exists []. now rewrite app_nil_r.
  - unfold Routing.create_referral.
    destruct (patients (data s) !! Some patient); [| apply Hsame].
    destruct (Dict.contains to_doc (doctors (data s))); simpl; [| apply Hsame].
    destruct (current_user s); [| apply Hsame]. unfold P. simpl.
    split; [exists []; rewrite app_nil_r; simpl; auto |].
    split; [eexists; split; [reflexivity | simpl; lia] |].
    split; [auto |]. split; [auto |]. split; [| auto].
    intros q l H. exists []. now rewrite app_nil_r.
  - unfold Routing.upload_report.
    destruct (patients (data s) !! Some patient); [| apply Hsame].
    destruct (current_user s) as [cu|]; [| apply Hsame]. unfold P. simpl.
    split; [exists []; rewrite app_nil_r; simpl; auto |].
    split; [exists []; rewrite app_nil_r; simpl; auto |].
    split; [auto |]. split; [auto |]. split; [| auto].
    intros q l H.
    destruct (decide (patient = q)) as [->|Hne].
    + rewrite lookup_insert_eq, H. simpl. eauto.
    + rewrite lookup_insert_ne by exact Hne. exists []. now rewrite app_nil_r.
Qed.

Lemma core_keeps_document_records_witness :
  Dict.get "d1"
    (doctors (data (snd (Core.run
                           (Core.AddDoctor "d2" "Jane Doe" "Orthopedic" "s3cret")
                           Clinic.pms))))
  = Some Clinic.dr_a.
Proof.
  destruct (proj1 (proj2 (proj2 (proj2 (proj2 (proj2
              (core_keeps_document_records
                 (Core.AddDoctor "d2" "Jane Doe" "Orthopedic" "s3cret")
                 Clinic.pms))))))
              "d1" Clinic.dr_a eq_refl) as [H|(name & sp & pw & Hop & _)].
  - exact H.
  - discriminate Hop.
Defined.

(** The record of a doctor is replaced when [add_doctor] generates an id that
    is already a key of the doctors collection. *)
Example add_doctor_replaces_on_id_collision :
  Dict.get "d1" (doctors (data Clinic.pms)) = Some Clinic.dr_a
  /\ Dict.get "d1"
       (doctors (data (snd (Core.run
                              (Core.AddDoctor "d1" "Jane Doe" "Orthopedic" "s3cret")
                              Clinic.pms))))
     = Some (mkDoctor "d1" "Jane Doe" "Orthopedic").
Proof. split; reflexivity. Qed.

(** ** Derived usernames *)

Lemma replace_space_no_space s c :
  In c (list_ascii_of_string (Py.replace_space s)) -> c <> " "%char.
Proof.
  induction s as [|x r IH]; simpl; [intros [] |].
  intros [<-|Hc]; [| now apply IH].
  destruct (bool_decide (x = " "%char)) eqn:E; [discriminate |].
  now apply bool_decide_eq_false in E.
Qed.

Lemma username_char_ascii c :
  (nat_of_ascii c <? 128) = true -> (nat_of_ascii (username_char c) <? 128) = true.
Proof. destruct c as [[] [] [] [] [] [] [] []]; vm_compute; congruence. Qed.

(** X26.  The username [add_doctor] derives never holds a space, whatever
    [str.lower] does to the name.  For a name of ASCII characters, on which
    [Py.lower] is [str.lower], the username is ASCII, holds no upper-case
    letter, has the length of the name, and is left as it is when derived
    again. *)
Theorem doctor_username_normal :
  (forall (str_lower : string -> string) name c,
     In c (list_ascii_of_string (Uni.doctor_username str_lower name)) ->
     c <> " "%char)
  /\ (forall name,
        is_ascii name = true ->
        let u := Py.replace_space (Py.lower name) in
        is_ascii u = true
        /\ (forall c, In c (list_ascii_of_string u) -> ~ (65 <= nat_of_ascii c <= 90))
        /\ String.length u = String.length name
        /\ Py.replace_space (Py.lower u) = u).
Proof.
  split.
  - intros str_lower name c. apply replace_space_no_space.
  - intros name Hname u. subst u.
    change (Py.replace_space (Py.lower name)) with (Routing.doctor_username name).
    assert (Hplain : forall c,
              In c (list_ascii_of_string (Routing.doctor_username name)) ->
              plain_char c = true).
    { clear Hname. induction name as [|c r IH]; [intros ? [] |].
      rewrite doctor_username_cons. simpl.
      intros x [<-|Hx]; [apply username_char_plain | now apply IH]. }
    split; [| split; [| split]].
    + clear Hplain. induction name as [|c r IH]; [reflexivity |].
      rewrite doctor_username_cons. simpl in *.
      apply andb_true_iff in Hname as [Hc Hr].
      apply andb_true_iff. split; [now apply username_char_ascii | now apply IH].
    + intros c Hc. specialize (Hplain c Hc). unfold plain_char in Hplain.
      apply andb_true_iff in Hplain as [_ H2]. apply negb_true_iff in H2.
      intros [Hlo Hhi]. apply Nat.leb_le in Hlo, Hhi.
      rewrite Hlo, Hhi in H2. discriminate.
    + clear. induction name as [|c r IH]; [reflexivity |].
      rewrite doctor_username_cons. simpl. now f_equal.
    + change (Py.replace_space (Py.lower (Routing.doctor_username name)))
        with (Routing.doctor_username (Routing.doctor_username name)).
      revert Hplain. generalize (Routing.doctor_username name). intros u Hu.
      induction u as [|c r IH]; [reflexivity |].
      rewrite doctor_username_cons. simpl in Hu.
      rewrite username_char_fixed by (apply Hu; now left).
      f_equal. apply IH. intros x Hx. apply Hu. now right.
Qed.

Lemma doctor_username_normal_witness :
  is_ascii "jane_doe" = true
  /\ (forall c, In c (list_ascii_of_string "jane_doe") -> ~ (65 <= nat_of_ascii c <= 90))
  /\ String.length "jane_doe" = String.length "Jane Doe"
  /\ Py.replace_space (Py.lower "jane_doe") = "jane_doe".
Proof.
  exact (proj2 doctor_username_normal "Jane Doe" eq_refl).
Defined.

